(** * XEPRadarConnector (src/matlab/xep_radar_connector.py), shallow embedding

    The connector object is a record of its fields plus the serial port it
    talks to: the bytes the device will send ([rx]), the byte strings written
    by the host ([tx]), the number of [serial.close()] calls ([released]) and
    the warnings logged by [_connect].  Methods run in a state/exception
    monad; an exception is a tagged Python exception, and [Hang] is the
    busy-wait loop of [_read_response] spinning forever once the device has
    nothing more to send. *)

From Stdlib Require Import ZArith List Bool String Ascii Lia ZifyNat.
From Stdlib Require Import Floats.SpecFloat.
Import ListNotations.
Open Scope Z_scope.

(** ** Python values and exceptions *)

Inductive exn :=
| RadarError (msg : string)
| ConnectionError (msg : string)
| ProtocolError (msg : string)
| ValueError (msg : string)
| UnicodeDecodeError
| AttributeError.

Inductive outcome (A : Type) :=
| Ok (a : A)
| Raise (e : exn)
| Hang.
Arguments Ok {A} a.
Arguments Raise {A} e.
Arguments Hang {A}.

(** [value: Union[int, float]] of [update_chip]; Python floats are binary64. *)
Inductive pynum :=
| PInt (z : Z)
| PFloat (f : spec_float).

(** [bool(value)] *)
Definition py_bool (v : pynum) : bool :=
  match v with
  | PInt z => negb (z =? 0)
  | PFloat (S754_zero _) => false
  | PFloat _ => true
  end.

(** ** Bytes *)

Definition bytes := list Byte.byte.

Definition encode (s : string) : bytes := list_byte_of_string s.

Fixpoint bytes_eqb (a b : bytes) : bool :=
  match a, b with
  | [], [] => true
  | x :: a', y :: b' => Byte.eqb x y && bytes_eqb a' b'
  | _, _ => false
  end.

Definition ACK : bytes := encode "<ACK>".
Definition ERR : bytes := encode "<ERR>".

(** [response[-5:]] and [response[:5]] *)
Definition last5 (l : bytes) : bytes := skipn (List.length l - 5) l.
Definition first5 (l : bytes) : bytes := firstn 5 l.

(** [str.strip()] on ASCII text: Python's whitespace set restricted to
    ASCII is \t \n \v \f \r, \x1c..\x1f and the space. *)
Definition py_space (c : ascii) : bool :=
  let n := nat_of_ascii c in
  ((9 <=? n) && (n <=? 13))%nat || ((28 <=? n) && (n <=? 32))%nat.

Fixpoint lstrip (s : string) : string :=
  match s with
  | EmptyString => EmptyString
  | String c s' => if py_space c then lstrip s' else s
  end.

Definition rev_string (s : string) : string :=
  string_of_list_ascii (rev (list_ascii_of_string s)).

Definition strip (s : string) : string := rev_string (lstrip (rev_string (lstrip s))).

(** ** Float32 values

    [np.float32] elements are 32-bit words; arithmetic on them is IEEE-754
    binary32 ([prec32], [emax32]) with round-to-nearest-even, as [SFadd],
    [SFmul] and [SFsub] compute it. *)

Definition prec32 : Z := 24.
Definition emax32 : Z := 128.
Definition f32 := spec_float.

(** The binary32 value of a bit pattern. *)
Definition b32_of_bits (w : Z) : f32 :=
  let m := w mod 2 ^ 23 in
  let e := (w / 2 ^ 23) mod 256 in
  let sg := Z.testbit w 31 in
  if e =? 0 then
    if m =? 0 then S754_zero sg else S754_finite sg (Z.to_pos m) (-149)
  else if e =? 255 then
    if m =? 0 then S754_infinity sg else S754_nan
  else S754_finite sg (Z.to_pos (m + 2 ^ 23)) (e - 150).

Definition fzero : f32 := S754_zero false.
Definition fone : f32 := SFone prec32 emax32.

(** Byte order of the host, the one [np.frombuffer] reads with. *)
Inductive endian := LittleEndian | BigEndian.

Definition byte_z (b : Byte.byte) : Z := Z.of_nat (Byte.to_nat b).

Definition word_of_bytes (e : endian) (b0 b1 b2 b3 : Byte.byte) : Z :=
  match e with
  | LittleEndian => byte_z b0 + byte_z b1 * 2 ^ 8 + byte_z b2 * 2 ^ 16 + byte_z b3 * 2 ^ 24
  | BigEndian => byte_z b3 + byte_z b2 * 2 ^ 8 + byte_z b1 * 2 ^ 16 + byte_z b0 * 2 ^ 24
  end.

Fixpoint words_of_bytes (e : endian) (l : bytes) : list Z :=
  match l with
  | b0 :: b1 :: b2 :: b3 :: r => word_of_bytes e b0 b1 b2 b3 :: words_of_bytes e r
  | _ => []
  end.

(** [np.frombuffer(frame, dtype=np.float32)] *)
Definition frombuffer (e : endian) (l : bytes) : outcome (list Z) :=
  if (List.length l mod 4 =? 0)%nat then Ok (words_of_bytes e l)
  else Raise (ValueError "buffer size must be a multiple of element size").

(** [data[::2]] and [data[1::2]] *)
Fixpoint evens {A} (l : list A) : list A :=
  match l with
  | [] => []
  | x :: r => x :: odds r
  end
with odds {A} (l : list A) : list A :=
  match l with
  | [] => []
  | _ :: r => evens r
  end.

(** [1j * x] for a float32 [x]: [x] is cast to the complex [(x, 0)] and
    multiplied by [(0, 1)] with numpy's complex product
    [(ar*br - ai*bi, ar*bi + ai*br)]. *)
Definition mul_1j (x : f32) : f32 * f32 :=
  (SFsub prec32 emax32 (SFmul prec32 emax32 fzero x) (SFmul prec32 emax32 fone fzero),
   SFadd prec32 emax32 (SFmul prec32 emax32 fzero fzero) (SFmul prec32 emax32 fone x)).

(** [e + c] for a float32 [e] cast to [(e, 0)] and a complex [c]. *)
Definition add_real_cplx (e : f32) (c : f32 * f32) : f32 * f32 :=
  (SFadd prec32 emax32 e (fst c), SFadd prec32 emax32 fzero (snd c)).

(** numpy broadcasting of a binary operation on two 1-d arrays. *)
Definition broadcast {A B C} (f : A -> B -> C) (xs : list A) (ys : list B) : outcome (list C) :=
  if (List.length xs =? List.length ys)%nat then Ok (map (fun p => f (fst p) (snd p)) (combine xs ys))
  else match xs, ys with
       | [x], _ => Ok (map (f x) ys)
       | _, [y] => Ok (map (fun x => f x y) xs)
       | _, _ => Raise (ValueError "operands could not be broadcast together")
       end.

(** What [_process_frame] returns: a float32 array (its words) or a complex
    array. *)
Inductive frame_data :=
| RealArr (w : list Z)
| CplxArr (c : list (f32 * f32)).

(** The body of [_process_frame] for a given [self._x4_down_converter]. *)
Definition decode (e : endian) (down : bool) (frame : bytes) : outcome frame_data :=
  match frombuffer e frame with
  | Ok data =>
      if down then
        let fl := map b32_of_bits data in
        match broadcast add_real_cplx (evens fl) (map mul_1j (odds fl)) with
        | Ok c => Ok (CplxArr c)
        | Raise x => Raise x
        | Hang => Hang
        end
      else Ok (RealArr data)
  | Raise x => Raise x
  | Hang => Hang
  end.

(** ** The connector *)

Record RadarConfig := {
  com_port : string;
  baudrate : Z;
  timeout : spec_float;
  retry_attempts : Z;
  packet_version : Z
}.

(** The [serial.Serial] object: its two control lines. *)
Record Serial := { dtr : bool; rts : bool }.

Record St := {
  is_open : bool;               (* self._is_open *)
  num_samplers : Z;             (* self._num_samplers *)
  x4_down_converter : bool;     (* self._x4_down_converter *)
  serial : option Serial;       (* self._serial *)
  rx : bytes;                   (* bytes the device sends, in order *)
  tx : list bytes;              (* writes done on the port *)
  released : nat;               (* serial.close() calls *)
  warnings : list Z             (* attempts reported by logger.warning *)
}.

Definition set_is_open (b : bool) (s : St) : St :=
  Build_St b s.(num_samplers) s.(x4_down_converter) s.(serial) s.(rx) s.(tx) s.(released) s.(warnings).
Definition set_num_samplers (n : Z) (s : St) : St :=
  Build_St s.(is_open) n s.(x4_down_converter) s.(serial) s.(rx) s.(tx) s.(released) s.(warnings).
Definition set_x4_down_converter (b : bool) (s : St) : St :=
  Build_St s.(is_open) s.(num_samplers) b s.(serial) s.(rx) s.(tx) s.(released) s.(warnings).
Definition set_serial (p : option Serial) (s : St) : St :=
  Build_St s.(is_open) s.(num_samplers) s.(x4_down_converter) p s.(rx) s.(tx) s.(released) s.(warnings).
Definition set_rx (r : bytes) (s : St) : St :=
  Build_St s.(is_open) s.(num_samplers) s.(x4_down_converter) s.(serial) r s.(tx) s.(released) s.(warnings).
Definition push_tx (w : bytes) (s : St) : St :=
  Build_St s.(is_open) s.(num_samplers) s.(x4_down_converter) s.(serial) s.(rx) (s.(tx) ++ [w]) s.(released) s.(warnings).
Definition bump_released (s : St) : St :=
  Build_St s.(is_open) s.(num_samplers) s.(x4_down_converter) s.(serial) s.(rx) s.(tx) (S s.(released)) s.(warnings).
Definition push_warning (a : Z) (s : St) : St :=
  Build_St s.(is_open) s.(num_samplers) s.(x4_down_converter) s.(serial) s.(rx) s.(tx) s.(released) (s.(warnings) ++ [a]).

Definition push_warnings (l : list Z) (s : St) : St :=
  Build_St s.(is_open) s.(num_samplers) s.(x4_down_converter) s.(serial) s.(rx) s.(tx) s.(released) (s.(warnings) ++ l).

(** The method monad. *)
Definition M (A : Type) := St -> outcome A * St.

Definition ret {A} (a : A) : M A := fun s => (Ok a, s).
Definition raise {A} (e : exn) : M A := fun s => (Raise e, s).
Definition bind {A B} (m : M A) (k : A -> M B) : M B :=
  fun s => match m s with
           | (Ok a, s') => k a s'
           | (Raise e, s') => (Raise e, s')
           | (Hang, s') => (Hang, s')
           end.
Definition get : M St := fun s => (Ok s, s).
Definition modify (f : St -> St) : M unit := fun s => (Ok tt, f s).
Definition lift {A} (o : outcome A) : M A := fun s => (o, s).

Notation "x <- m ;; k" := (bind m (fun x => k)) (at level 61, m at next level, right associativity).
Notation "m ;;; k" := (bind m (fun _ => k)) (at level 61, right associativity).

(** [try: body finally: fin].  [fin] runs once [body] returns or raises; an
    exception of [fin] replaces the outcome of [body]. *)
Definition try_finally {A} (body : M A) (fin : M unit) : M A :=
  fun s => match body s with
           | (Hang, s1) => (Hang, s1)
           | (o, s1) =>
               match fin s1 with
               | (Ok _, s2) => (o, s2)
               | (Raise x, s2) => (Raise x, s2)
               | (Hang, s2) => (Hang, s2)
               end
           end.

Section Connector.

(** [bytes.decode()] (UTF-8) and [int(str)] are Python built-ins; they are
    left abstract. *)
Variable utf8_decode : bytes -> option string.
Variable py_int : string -> option Z.
(** [str(value)] inside the f-string of [update_chip]. *)
Variable py_str : pynum -> string.
(** The host byte order. *)
Variable native : endian.

(** The byte loop shared by [_read_response] and [_read_frame], which differ
    only in the text before the device message.  [acc] is the bytearray
    accumulated so far, [inp] the bytes still to come from the device.
    An exhausted [inp] is [in_waiting] staying 0: the loop spins forever. *)
Fixpoint read_loop (prefix : string) (acc inp : bytes) : outcome bytes * bytes :=
  match inp with
  | [] => (Hang, [])
  | b :: inp' =>
      let acc' := acc ++ [b] in
      if (5 <=? List.length acc')%nat && bytes_eqb (last5 acc') ACK then
        (Ok (firstn (List.length acc' - 5) acc'), inp')
      else if (5 <=? List.length acc')%nat && bytes_eqb (first5 acc') ERR then
        match utf8_decode (skipn 5 acc') with
        | Some m => (Raise (ProtocolError (prefix ++ strip m)), inp')
        | None => (Raise UnicodeDecodeError, inp')
        end
      else read_loop prefix acc' inp'
  end.

Definition read_from (prefix : string) : M bytes :=
  fun s =>
    match s.(serial) with
    | None => (Raise AttributeError, s)
    | Some _ => let (o, r) := read_loop prefix [] s.(rx) in (o, set_rx r s)
    end.

(** [_read_response] *)
Definition read_response : M bytes := read_from "Radar error: ".

(** [_read_frame] *)
Definition read_frame : M bytes := read_from "Radar error during frame read: ".

(** [_write_command] *)
Definition write_command (command : string) : M unit :=
  fun s =>
    match s.(serial) with
    | None => (Raise (ConnectionError "Serial connection not established"), s)
    | Some _ => (Ok tt, push_tx (encode command ++ [Byte.x0a]) s)
    end.

(** [_process_frame] *)
Definition process_frame (frame : bytes) : M frame_data :=
  s <- get ;; lift (decode native s.(x4_down_converter) frame).

(** [_update_samplers] *)
Definition update_samplers : M unit :=
  write_command "VarGetValue_ByName(SamplersPerFrame)" ;;;
  response <- read_response ;;
  match utf8_decode response with
  | None => raise UnicodeDecodeError
  | Some t =>
      match py_int t with
      | None => raise (ValueError "invalid literal for int()")
      | Some n => modify (set_num_samplers n)
      end
  end.

(** [_connect]; [opens k] is whether [serial.Serial(...)] succeeds at the
    attempt numbered [k] (from 0), raising [SerialException] otherwise. *)
Fixpoint connect_from (opens : nat -> bool) (n : Z) (attempt fuel : nat) : M unit :=
  match fuel with
  | O => ret tt
  | S fuel' =>
      if opens attempt then
        (* self._serial = serial.Serial(...); dtr = True; rts = True *)
        modify (set_serial (Some {| dtr := true; rts := true |})) ;;;
        write_command "NVA_CreateHandle()" ;;;
        read_response ;;;
        ret tt
      else
        modify (push_warning (Z.of_nat attempt + 1)) ;;;
        if Z.of_nat attempt =? n - 1 then raise (ConnectionError "Failed to establish connection")
        else connect_from opens n (S attempt) fuel'
  end.

(** [for attempt in range(self.config.retry_attempts)] *)
Definition connect (config : RadarConfig) (opens : nat -> bool) : M unit :=
  connect_from opens config.(retry_attempts) 0 (Z.to_nat config.(retry_attempts)).

(** The fields set by [__init__] before it calls [_connect]. *)
Definition init_state (device : bytes) : St :=
  {| is_open := false; num_samplers := 0; x4_down_converter := false; serial := None;
     rx := device; tx := []; released := 0; warnings := [] |}.

(** [XEPRadarConnector(config)] against a device that sends [device]. *)
Definition init (config : RadarConfig) (opens : nat -> bool) (device : bytes) : outcome unit * St :=
  connect config opens (init_state device).

(** [open] *)
Definition open (connect_string : string) : M unit :=
  s <- get ;;
  if s.(is_open) then raise (RadarError "Radar connection already open")
  else
    write_command ("OpenRadar(" ++ connect_string ++ ")") ;;;
    read_response ;;;
    modify (set_is_open true) ;;;
    update_samplers.

(** [close] *)
Definition close : M unit :=
  s <- get ;;
  if negb s.(is_open) then ret tt
  else
    write_command "Close()" ;;;
    read_response ;;;
    modify (set_is_open false) ;;;
    s' <- get ;;
    match s'.(serial) with
    | Some _ => modify (fun t => set_serial None (bump_released t))
    | None => ret tt
    end.

(** [get_frame_raw] *)
Definition get_frame_raw : M frame_data :=
  write_command "GetFrameRaw()" ;;;
  frame <- read_frame ;;
  process_frame frame.

(** [get_frame_normalized] *)
Definition get_frame_normalized : M frame_data :=
  write_command "GetFrameNormalized()" ;;;
  frame <- read_frame ;;
  process_frame frame.

(** [register_name in ['ddc_en', 'DownConvert']] *)
Definition is_ddc_alias (register_name : string) : bool :=
  String.eqb register_name "ddc_en" || String.eqb register_name "DownConvert".

(** [update_chip] *)
Definition update_chip (register_name : string) (value : pynum) : M unit :=
  (if is_ddc_alias register_name then modify (set_x4_down_converter (py_bool value))
   else ret tt) ;;;
  write_command ("VarSetValue_ByName(" ++ register_name ++ "," ++ py_str value ++ ")") ;;;
  read_response ;;;
  update_samplers.

(** A caller issuing public calls one after another on the same connector,
    catching whatever each call raises. *)
Inductive call :=
| COpen (connect_string : string)
| CClose
| CGetFrameRaw
| CGetFrameNormalized
| CUpdateChip (register_name : string) (value : pynum).

Definition step (c : call) : M unit :=
  match c with
  | COpen cs => open cs
  | CClose => close
  | CGetFrameRaw => get_frame_raw ;;; ret tt
  | CGetFrameNormalized => get_frame_normalized ;;; ret tt
  | CUpdateChip n v => update_chip n v
  end.

Fixpoint run (calls : list call) (s : St) : St :=
  match calls with
  | [] => s
  | c :: rest => run rest (snd (step c s))
  end.

(** The calls that write the down-converter register. *)
Definition sets_ddc (c : call) : bool :=
  match c with
  | CUpdateChip n _ => is_ddc_alias n
  | _ => false
  end.

(** The [connection] context manager around a [with] block [body]:
    [try: self.open(connect_string); yield self finally: self.close()]. *)
Definition connection (connect_string : string) (body : M unit) : M unit :=
  try_finally (open connect_string ;;; body) close.

End Connector.

(** ** Callers in the scripts

    [configure_radar] of [RadarTest] (radar_test.py), [RadarVisualizer]
    (collect_visual.py) and [PracticalRadarTest] (period_collect.py), each
    issuing [update_chip] calls on [self.radar]. *)

(** The Python float [4.0] as a binary64. *)
Definition py_four : spec_float := S754_finite false 4503599627370496 (-50).

Module RadarTest.
Definition configure_radar d pi ps : M unit :=
  update_chip d pi ps "rx_wait" (PInt 0) ;;;
  update_chip d pi ps "frame_start" (PInt 0) ;;;
  update_chip d pi ps "frame_end" (PFloat py_four) ;;;
  update_chip d pi ps "ddc_en" (PInt 1).
End RadarTest.

Module RadarVisualizer.
Definition configure_radar d pi ps : M unit :=
  update_chip d pi ps "rx_wait" (PInt 0) ;;;
  update_chip d pi ps "frame_start" (PInt 0) ;;;
  update_chip d pi ps "frame_end" (PInt 2) ;;;
  update_chip d pi ps "ddc_en" (PInt 0) ;;;
  update_chip d pi ps "tx_region" (PInt 3) ;;;
  update_chip d pi ps "tx_power" (PInt 3).
End RadarVisualizer.

Module PracticalRadarTest.
Definition configure_radar d pi ps : M unit :=
  update_chip d pi ps "rx_wait" (PInt 0) ;;;
  update_chip d pi ps "frame_start" (PInt 2) ;;;
  update_chip d pi ps "frame_end" (PInt 4) ;;;
  update_chip d pi ps "ddc_en" (PInt 0) ;;;
  update_chip d pi ps "tx_region" (PInt 3) ;;;
  update_chip d pi ps "tx_power" (PInt 3).
End PracticalRadarTest.

(** ** Concrete built-ins for evaluation

    [bytes.decode()] on its ASCII fragment (other bytes are reported as
    undecodable here, which the examples below never meet) and a host that is
    little-endian. *)
Definition ascii_decode (l : bytes) : option string :=
  if forallb (fun b => Nat.ltb (Byte.to_nat b) 128) l then Some (string_of_list_byte l) else None.

(** A connector whose port is attached, as [_connect] leaves it, with the
    device about to send [device]. *)
Definition attached (device : bytes) : St :=
  set_serial (Some {| dtr := true; rts := true |}) (init_state device).

(** One I/Q pair as a little-endian host reads it: 1.0f then +inf. *)
Definition one_inf_payload : bytes :=
  [Byte.x00; Byte.x00; Byte.x80; Byte.x3f; Byte.x00; Byte.x00; Byte.x80; Byte.x7f].

(** An open session on an attached port. *)
Definition opened (device : bytes) : St := set_is_open true (attached device).

(** [RadarConfig(com_port)] with the given number of attempts and the
    other fields at their defaults (115200 baud, 5.0 s, version 0). *)
Definition config_with (port : string) (attempts : Z) : RadarConfig :=
  {| com_port := port; baudrate := 115200; timeout := S754_finite false 5 0;
     retry_attempts := attempts; packet_version := 0 |}.

(** [int(s)] on unsigned ASCII decimal text. *)
Fixpoint digits_val (acc : Z) (l : list ascii) : option Z :=
  match l with
  | [] => Some acc
  | c :: r =>
      let n := Z.of_nat (nat_of_ascii c) in
      if (48 <=? n) && (n <=? 57) then digits_val (10 * acc + (n - 48)) r else None
  end.

Definition dec_int (t : string) : option Z :=
  match list_ascii_of_string (strip t) with
  | [] => None
  | l => digits_val 0 l
  end.

(** ** Port names (ASCII text)

    The string methods the port helpers use, on ASCII strings: there
    [str.isdigit], [str.upper] and [str.lower] only concern the characters
    [0-9], [a-z] and [A-Z]. *)

Definition is_digit (c : ascii) : bool :=
  let n := nat_of_ascii c in ((48 <=? n) && (n <=? 57))%nat.

(** [s.isdigit()] *)
Definition isdigit (s : string) : bool :=
  match s with
  | EmptyString => false
  | _ => forallb is_digit (list_ascii_of_string s)
  end.

Definition upper_char (c : ascii) : ascii :=
  let n := nat_of_ascii c in
  if ((97 <=? n) && (n <=? 122))%nat then ascii_of_nat (n - 32) else c.

Definition lower_char (c : ascii) : ascii :=
  let n := nat_of_ascii c in
  if ((65 <=? n) && (n <=? 90))%nat then ascii_of_nat (n + 32) else c.

(** [s.upper()] and [s.lower()] *)
Definition upper (s : string) : string := string_of_list_ascii (map upper_char (list_ascii_of_string s)).
Definition lower (s : string) : string := string_of_list_ascii (map lower_char (list_ascii_of_string s)).

(** [s.startswith(p)] *)
Definition startswith (s p : string) : bool := String.prefix p s.

(** [sub in s] *)
Fixpoint contains (sub s : string) : bool :=
  String.prefix sub s ||
  match s with
  | EmptyString => false
  | String _ s' => contains sub s'
  end.

(** [''.join(filter(str.isdigit, s))] *)
Definition filter_digits (s : string) : string :=
  string_of_list_ascii (filter is_digit (list_ascii_of_string s)).

Definition digit_value (c : ascii) : Z := Z.of_nat (nat_of_ascii c) - 48.

(** The digits of [int(s)] after the first one: a [_] may separate two
    digits. *)
Fixpoint int_digits (acc : Z) (l : list ascii) : option Z :=
  match l with
  | [] => Some acc
  | c :: r =>
      if is_digit c then int_digits (10 * acc + digit_value c) r
      else if Ascii.eqb c "_" then
        match r with
        | c' :: r' => if is_digit c' then int_digits (10 * acc + digit_value c') r' else None
        | [] => None
        end
      else None
  end.

Definition int_unsigned (l : list ascii) : option Z :=
  match l with
  | c :: r => if is_digit c then int_digits (digit_value c) r else None
  | [] => None
  end.

(** [int(s)] for a [str] in base 10: surrounding whitespace, an optional
    sign, then digits; [None] is the [ValueError]. *)
Definition py_int_str (s : string) : option Z :=
  match list_ascii_of_string (strip s) with
  | "+"%char :: r => int_unsigned r
  | "-"%char :: r => option_map Z.opp (int_unsigned r)
  | l => int_unsigned l
  end.

(** The decimal digits of [n >= 0], least significant first. *)
Fixpoint digits_rev (fuel : nat) (n : Z) : list ascii :=
  match fuel with
  | O => []
  | S f =>
      ascii_of_nat (48 + Z.to_nat (n mod 10)) ::
      (if n / 10 =? 0 then [] else digits_rev f (n / 10))
  end.

(** [str(n)] (and [f'{n}']) for an [int]. *)
Definition str_int (n : Z) : string :=
  let ds := string_of_list_ascii (rev (digits_rev (S (Z.to_nat (Z.log2 (Z.abs n)))) (Z.abs n))) in
  if n <? 0 then String "-" ds else ds.

(** [normalize_port] of radar_test.py, collect_visual.py and
    period_collect.py (the three copies have the same code);
    [system] is [platform.system()]. *)
Definition normalize_port (system port : string) : outcome string :=
  if isdigit port then
    if String.eqb system "Windows" then Ok ("COM" ++ port)%string
    else match py_int_str port with
         | Some n => Ok ("/dev/ttyACM" ++ str_int (n - 1))%string
         | None => Raise (ValueError "invalid literal for int()")
         end
  else if String.eqb system "Windows" then
    Ok (if startswith (upper port) "COM" then port else "COM" ++ port)%string
  else if startswith (upper port) "COM" then
    match py_int_str (filter_digits port) with
    | Some num => Ok ("/dev/ttyACM" ++ str_int (num - 1))%string
    | None => Raise (ValueError "invalid literal for int()")
    end
  else if negb (startswith port "/dev/") then
    match py_int_str port with
    | Some n => Ok ("/dev/ttyACM" ++ str_int (n - 1))%string
    | None => Raise (ValueError "invalid literal for int()")
    end
  else Ok port.

(** The loop of [RadarConfig.find_radar_port] over the [device] names of
    [serial.tools.list_ports.comports()], [system] being
    [platform.system().lower()]. *)
Fixpoint scan_ports (system : string) (ports : list string) : option string :=
  match ports with
  | [] => None
  | port_name :: rest =>
      if String.eqb system "linux" && (contains "ttyUSB" port_name || contains "ttyACM" port_name)
      then Some port_name
      else if String.eqb system "windows" && startswith port_name "COM" then Some port_name
      else scan_ports system rest
  end.

(** [RadarConfig.find_radar_port] *)
Definition find_radar_port (platform_system : string) (available_ports : list string) : option string :=
  match available_ports with
  | [] => None
  | _ => scan_ports (lower platform_system) available_ports
  end.

(** The Python float [5.0] as a binary64. *)
Definition py_five : spec_float := S754_finite false 5629499534213120 (-50).

(** [RadarConfig.create_default] *)
Definition create_default (platform_system : string) (available_ports : list string) : RadarConfig :=
  let fallback := if String.eqb (lower platform_system) "windows" then "COM3"%string else "/dev/ttyUSB0"%string in
  let port := match find_radar_port platform_system available_ports with
              | Some p => if String.eqb p "" then fallback else p
              | None => fallback
              end in
  {| com_port := port; baudrate := 115200; timeout := py_five; retry_attempts := 20;
     packet_version := 0 |}.

(** The port names [find_radar_port] accepts, for a lower-cased system. *)
Definition radar_port_name (system port_name : string) : bool :=
  (String.eqb system "linux" && (contains "ttyUSB" port_name || contains "ttyACM" port_name)) ||
  (String.eqb system "windows" && startswith port_name "COM").

(** A device acknowledging [k] commands, each followed by a sampler query
    answered [8]. *)
Definition acks (k : nat) : bytes := List.concat (repeat (ACK ++ encode "8" ++ ACK) k).

(** ASCII letters. *)
Definition is_letter (c : ascii) : bool :=
  let n := nat_of_ascii c in ((65 <=? n) && (n <=? 90))%nat || ((97 <=? n) && (n <=? 122))%nat.

(** ** Framing lemmas *)

Lemma bytes_eqb_eq (a b : bytes) : bytes_eqb a b = true <-> a = b.
Proof.
  revert b; induction a as [|x a IH]; intros [|y b]; simpl; split; intro H;
    try discriminate; try reflexivity.
  - apply andb_prop in H as [H1 H2]. apply Byte.byte_dec_bl in H1.
    apply IH in H2. subst; reflexivity.
  - injection H as -> ->. rewrite Byte.byte_dec_lb by reflexivity.
    simpl. apply IH; reflexivity.
Qed.

(** The accumulated bytes trigger neither exit of the loop. *)
Definition quiet (l : bytes) : bool :=
  negb ((5 <=? List.length l)%nat && bytes_eqb (last5 l) ACK) &&
  negb ((5 <=? List.length l)%nat && bytes_eqb (first5 l) ERR).

Lemma read_loop_skip (d : bytes -> option string) pre u : forall acc inp,
  (forall k, (1 <= k <= List.length u)%nat -> quiet (acc ++ firstn k u) = true) ->
  read_loop d pre acc (u ++ inp) = read_loop d pre (acc ++ u) inp.
Proof.
  induction u as [|b u IH]; intros acc inp Hq.
  - rewrite app_nil_r; reflexivity.
  - change ((b :: u) ++ inp) with (b :: (u ++ inp)); cbn [read_loop].
    pose proof (Hq 1%nat) as H1. simpl in H1.
    assert (H1' : quiet (acc ++ [b]) = true) by (apply H1; simpl; lia).
    unfold quiet in H1'. apply andb_prop in H1' as [Ha He].
    apply negb_true_iff in Ha, He. rewrite Ha, He.
    replace (acc ++ b :: u) with ((acc ++ [b]) ++ u) by (rewrite <- app_assoc; reflexivity).
    apply IH. intros k Hk.
    rewrite <- app_assoc. apply (Hq (S k)). simpl; lia.
Qed.

Lemma last5_split (l : bytes) : last5 l = ACK -> l = firstn (List.length l - 5) l ++ ACK.
Proof.
  intro H. unfold last5 in H. rewrite <- H. symmetry. apply firstn_skipn.
Qed.

Lemma first5_firstn (x : bytes) k : (5 <= k)%nat -> first5 (firstn k x) = first5 x.
Proof.
  intro Hk. unfold first5. rewrite firstn_firstn. f_equal. lia.
Qed.

Lemma read_loop_ack_step (d : bytes -> option string) pre acc b inp :
  (5 <= List.length (acc ++ [b]))%nat -> last5 (acc ++ [b]) = ACK ->
  read_loop d pre acc (b :: inp) = (Ok (firstn (List.length (acc ++ [b]) - 5) (acc ++ [b])), inp).
Proof.
  intros Hl H5. cbn [read_loop].
  apply Nat.leb_le in Hl. rewrite Hl, H5. reflexivity.
Qed.

Lemma length_ACK : List.length ACK = 5%nat.
Proof. reflexivity. Qed.

Lemma last5_app_ACK (p : bytes) : last5 (p ++ ACK) = ACK.
Proof.
  unfold last5. rewrite length_app, length_ACK.
  replace (List.length p + 5 - 5)%nat with (List.length p) by lia.
  rewrite skipn_app, skipn_all, Nat.sub_diag. reflexivity.
Qed.

Lemma firstn_app_ACK (p : bytes) : firstn (List.length (p ++ ACK) - 5) (p ++ ACK) = p.
Proof.
  rewrite length_app, length_ACK.
  replace (List.length p + 5 - 5)%nat with (List.length p) by lia.
  rewrite firstn_app, firstn_all, Nat.sub_diag. simpl. apply app_nil_r.
Qed.

Lemma first5_app (x y : bytes) : (5 <= List.length x)%nat -> first5 (x ++ y) = first5 x.
Proof.
  intro H. unfold first5. rewrite firstn_app.
  replace (5 - List.length x)%nat with 0%nat by lia. simpl. apply app_nil_r.
Qed.

(** The prefixes of [payload ++ ACK] shorter than it are quiet when the
    stream does not start with the error marker and the marker occurs only
    at its end. *)
Lemma quiet_prefixes (payload : bytes) k :
  first5 (payload ++ ACK) <> ERR ->
  (forall q r, payload ++ ACK = q ++ ACK ++ r -> r = []) ->
  (1 <= k < List.length (payload ++ ACK))%nat ->
  quiet (firstn k (payload ++ ACK)) = true.
Proof.
  intros Herr Hocc Hk. set (x := payload ++ ACK) in *.
  assert (Hlen : List.length (firstn k x) = k) by (rewrite length_firstn; lia).
  unfold quiet. apply andb_true_intro; split; apply negb_true_iff.
  - destruct (5 <=? List.length (firstn k x))%nat eqn:E5; [|reflexivity]. simpl.
    destruct (bytes_eqb (last5 (firstn k x)) ACK) eqn:EA; [|reflexivity].
    apply bytes_eqb_eq, last5_split in EA.
    assert (Hx : x = firstn (List.length (firstn k x) - 5) (firstn k x) ++ ACK ++ skipn k x).
    { rewrite app_assoc, <- EA. symmetry. apply firstn_skipn. }
    apply Hocc in Hx. exfalso.
    assert (Hs : List.length (skipn k x) = (List.length x - k)%nat) by apply length_skipn.
    rewrite Hx in Hs. simpl in Hs. lia.
  - destruct (5 <=? List.length (firstn k x))%nat eqn:E5; [|reflexivity]. simpl.
    apply Nat.leb_le in E5. rewrite Hlen in E5.
    rewrite first5_firstn by lia.
    destruct (bytes_eqb (first5 x) ERR) eqn:EE; [|reflexivity].
    apply bytes_eqb_eq in EE. contradiction.
Qed.

(** C1 (amended).  A stream that begins with the error marker makes
    [_read_response] raise a [ProtocolError] whose message is the text
    [Radar error: ] followed by the device text the loop decoded. *)
Theorem read_response_err_prefix (d : bytes -> option string) (s : St) (p : Serial) (rest : bytes) :
  d [] = Some EmptyString ->
  serial s = Some p -> rx s = ERR ++ rest ->
  exists msg, fst (read_response d s) = Raise (ProtocolError ("Radar error: " ++ msg)).
Proof.
  intros Hd Hs Hr. unfold read_response, read_from. rewrite Hs, Hr.
  cbn. rewrite Hd. exists EmptyString. reflexivity.
Qed.

(** C2 (amended).  When the stream is [payload ++ <ACK> ++ rest], does not
    begin with the error marker, and [<ACK>] does not occur in
    [payload ++ <ACK>] before its end, [_read_response] returns [payload]
    and leaves [rest] unread. *)
Theorem read_response_first_ack (d : bytes -> option string) (s : St) (p : Serial) (payload rest : bytes) :
  serial s = Some p -> rx s = payload ++ ACK ++ rest ->
  first5 (rx s) <> ERR ->
  (forall q r, payload ++ ACK = q ++ ACK ++ r -> r = []) ->
  read_response d s = (Ok payload, set_rx rest s).
Proof.
  intros Hs Hr Herr Hocc. unfold read_response, read_from. rewrite Hs, Hr.
  rewrite Hr, app_assoc, first5_app in Herr by (rewrite length_app, length_ACK; lia).
  set (u := payload ++ [Byte.x3c; Byte.x41; Byte.x43; Byte.x4b]).
  assert (Hx : payload ++ ACK = u ++ [Byte.x3e]) by (unfold u; rewrite <- app_assoc; reflexivity).
  replace (payload ++ ACK ++ rest) with (u ++ Byte.x3e :: rest)
    by (rewrite app_assoc, Hx, <- app_assoc; reflexivity).
  rewrite read_loop_skip.
  - simpl app at 1. rewrite read_loop_ack_step; rewrite <- Hx.
    + rewrite firstn_app_ACK. reflexivity.
    + rewrite length_app, length_ACK; lia.
    + apply last5_app_ACK.
  - intros k Hk. simpl.
    assert (Hk' : (1 <= k < List.length (payload ++ ACK))%nat) by (rewrite Hx, length_app; simpl; lia).
    replace (firstn k u) with (firstn k (payload ++ ACK)).
    + apply quiet_prefixes; assumption.
    + rewrite Hx, firstn_app. replace (k - List.length u)%nat with 0%nat by lia.
      simpl. apply app_nil_r.
Qed.

(** ** Decoder lemmas *)

Lemma process_frame_eq (e : endian) frame s :
  process_frame e frame s = (decode e s.(x4_down_converter) frame, s).
Proof. reflexivity. Qed.

Lemma words_of_bytes_spec (e : endian) n : forall frame,
  List.length frame = (4 * n)%nat ->
  List.length (words_of_bytes e frame) = n /\
  forall i, (i < n)%nat ->
    nth i (words_of_bytes e frame) 0 =
    word_of_bytes e (nth (4 * i) frame Byte.x00) (nth (4 * i + 1) frame Byte.x00)
                    (nth (4 * i + 2) frame Byte.x00) (nth (4 * i + 3) frame Byte.x00).
Proof.
  induction n as [|n IH]; intros frame Hl.
  - destruct frame; [|simpl in Hl; lia]. split; [reflexivity | intros; lia].
  - destruct frame as [|b0 [|b1 [|b2 [|b3 r]]]]; simpl in Hl; try lia.
    destruct (IH r) as [IHl IHn]; [lia|]. split.
    + simpl. rewrite IHl. reflexivity.
    + intros [|i] Hi; [reflexivity|].
      replace (4 * S i)%nat with (S (S (S (S (4 * i))))) by lia. simpl nth.
      rewrite IHn by lia. reflexivity.
Qed.

Lemma length_words (e : endian) frame :
  List.length (words_of_bytes e frame) = (List.length frame / 4)%nat.
Proof.
  remember (List.length frame) as l eqn:El. revert frame El.
  induction l as [l IH] using (well_founded_induction lt_wf). intros frame El.
  destruct frame as [|b0 [|b1 [|b2 [|b3 r]]]]; simpl in El; subst; try reflexivity.
  cbn [words_of_bytes List.length]. rewrite (IH (List.length r) ltac:(lia) r eq_refl). lia.
Qed.

Lemma length_evens_odds {A} (l : list A) :
  List.length (evens l) = ((List.length l + 1) / 2)%nat /\ List.length (odds l) = (List.length l / 2)%nat.
Proof.
  induction l as [|x l [IHe IHo]]; [split; reflexivity|]. cbn [evens odds List.length]. split.
  - rewrite IHo. lia.
  - rewrite IHe. lia.
Qed.

Lemma broadcast_ok {A B C} (f : A -> B -> C) xs ys :
  (List.length xs = List.length ys \/ List.length xs = 1 \/ List.length ys = 1)%nat ->
  exists r, broadcast f xs ys = Ok r /\
            List.length r = (if Nat.eqb (List.length xs) 1 then List.length ys else List.length xs).
Proof.
  intro H. unfold broadcast.
  destruct (Nat.eqb (List.length xs) (List.length ys)) eqn:E.
  - apply Nat.eqb_eq in E. eexists; split; [reflexivity|].
    rewrite length_map, length_combine, <- E, Nat.min_id.
    destruct (Nat.eqb (List.length xs) 1) eqn:E1; [apply Nat.eqb_eq in E1; lia | reflexivity].
  - apply Nat.eqb_neq in E.
    destruct xs as [|x [|x' xs]], ys as [|y [|y' ys]]; simpl in *; try lia;
      eexists; (split; [reflexivity|]); simpl; rewrite ?length_map; reflexivity.
Qed.

Lemma broadcast_err {A B C} (f : A -> B -> C) xs ys :
  List.length xs <> List.length ys -> List.length xs <> 1%nat -> List.length ys <> 1%nat ->
  broadcast f xs ys = Raise (ValueError "operands could not be broadcast together").
Proof.
  intros H1 H2 H3. unfold broadcast.
  destruct (Nat.eqb_neq (List.length xs) (List.length ys)) as [_ ->]; [|assumption].
  destruct xs as [|x [|x' xs]], ys as [|y [|y' ys]]; simpl in *; try lia; reflexivity.
Qed.

(** C4.  With [self._x4_down_converter] false, a payload of [4 * n] bytes
    decodes to [n] float32 words, word [i] being bytes [4i .. 4i+3] read in
    the host byte order, and the connector state is unchanged. *)
Theorem process_frame_real (e : endian) (s : St) (frame : bytes) (n : nat) :
  x4_down_converter s = false -> List.length frame = (4 * n)%nat ->
  exists ws, process_frame e frame s = (Ok (RealArr ws), s) /\ List.length ws = n /\
    forall i, (i < n)%nat ->
      nth i ws 0 =
      word_of_bytes e (nth (4 * i) frame Byte.x00) (nth (4 * i + 1) frame Byte.x00)
                      (nth (4 * i + 2) frame Byte.x00) (nth (4 * i + 3) frame Byte.x00).
Proof.
  intros Hd Hl. rewrite process_frame_eq, Hd. unfold decode, frombuffer.
  replace (List.length frame mod 4 =? 0)%nat with true by (symmetry; apply Nat.eqb_eq; lia).
  destruct (words_of_bytes_spec e n frame Hl) as [Hn Hi].
  exists (words_of_bytes e frame). repeat split; assumption.
Qed.

(** C5 (amended).  [_process_frame] raises numpy's [ValueError] exactly
    when the payload length is not a multiple of 4, or, with the
    down-converter on, when it is [8k + 4] with [k >= 2]; with the
    down-converter on, a 4-byte payload decodes to no sample and a 12-byte
    payload to two samples. *)
Theorem process_frame_value_error (e : endian) (s : St) :
  (forall frame,
     (exists m, fst (process_frame e frame s) = Raise (ValueError m)) <->
     ((List.length frame mod 4 <> 0)%nat \/
      (x4_down_converter s = true /\ (List.length frame mod 8 = 4)%nat /\ (20 <= List.length frame)%nat))) /\
  (forall b0 b1 b2 b3,
     fst (process_frame e [b0; b1; b2; b3] (set_x4_down_converter true s)) = Ok (CplxArr [])) /\
  (forall b0 b1 b2 b3 b4 b5 b6 b7 b8 b9 b10 b11,
     exists c0 c1,
     fst (process_frame e [b0; b1; b2; b3; b4; b5; b6; b7; b8; b9; b10; b11]
                          (set_x4_down_converter true s)) = Ok (CplxArr [c0; c1])).
Proof.
  split; [|split].
  - intro frame. rewrite process_frame_eq. simpl fst. unfold decode, frombuffer.
    destruct (List.length frame mod 4 =? 0)%nat eqn:E4.
    + apply Nat.eqb_eq in E4.
      destruct (x4_down_converter s).
      * set (fl := map b32_of_bits (words_of_bytes e frame)).
        assert (Hfl : List.length fl = (List.length frame / 4)%nat)
          by (unfold fl; rewrite length_map; apply length_words).
        destruct (length_evens_odds fl) as [He Ho].
        destruct ((Nat.eqb (List.length (evens fl)) (List.length (map mul_1j (odds fl))))
                  || Nat.eqb (List.length (evens fl)) 1
                  || Nat.eqb (List.length (map mul_1j (odds fl))) 1) eqn:Ec.
        -- rewrite !orb_true_iff, !Nat.eqb_eq in Ec.
           destruct (broadcast_ok add_real_cplx (evens fl) (map mul_1j (odds fl))) as [r [Hr _]];
             [tauto|].
           rewrite Hr. split; [intros [m Hm]; discriminate|].
           rewrite length_map in Ec. intros [H|[_ [H1 H2]]]; [lia|]. lia.
        -- rewrite !orb_false_iff, !Nat.eqb_neq in Ec. destruct Ec as [[Ec1 Ec2] Ec3].
           rewrite broadcast_err by assumption.
           split; [intros _|eexists; reflexivity].
           rewrite length_map in Ec1, Ec3. right. lia.
      * split; [intros [m Hm]; discriminate|]. intros [H|[H _]]; [lia|discriminate].
    + apply Nat.eqb_neq in E4. split; [intros _; left; exact E4|].
      intros _. eexists; reflexivity.
  - intros. reflexivity.
  - intros. do 2 eexists. reflexivity.
Qed.

(** C3 (code bug).  The I/Q pair (1.0f, +inf) decodes, with the
    down-converter on, to the complex sample (NaN, +inf): [1j * inf] has the
    real part [0 * inf - 1 * 0 = NaN], which [1.0 + NaN] carries into the
    sample, although element 0 of the payload is 1.0. *)
Theorem process_frame_inf_imag_nan :
  fst (process_frame LittleEndian one_inf_payload (set_x4_down_converter true (attached [])))
    = Ok (CplxArr [(S754_nan, S754_infinity false)]) /\
  map b32_of_bits (words_of_bytes LittleEndian one_inf_payload)
    = [S754_finite false 8388608 (-23); S754_infinity false] /\
  fone = S754_finite false 8388608 (-23).
Proof. vm_compute. repeat split. Qed.

(** ** Session lemmas *)

(** [m] leaves [self._x4_down_converter] as it found it, whatever it
    returns or raises. *)
Definition keeps_x4 {A} (m : M A) : Prop :=
  forall s, x4_down_converter (snd (m s)) = x4_down_converter s.

Create HintDb keeps.

Lemma keeps_x4_bind {A B} (m : M A) (k : A -> M B) :
  keeps_x4 m -> (forall a, keeps_x4 (k a)) -> keeps_x4 (bind m k).
Proof.
  intros Hm Hk s. unfold bind. specialize (Hm s).
  destruct (m s) as [[a|x|] s']; simpl in *; [rewrite Hk|..]; assumption.
Qed.

Lemma keeps_x4_ret {A} (a : A) : keeps_x4 (ret a).
Proof. intro; reflexivity. Qed.
Lemma keeps_x4_raise {A} x : keeps_x4 (@raise A x).
Proof. intro; reflexivity. Qed.
Lemma keeps_x4_get : keeps_x4 get.
Proof. intro; reflexivity. Qed.
Lemma keeps_x4_lift {A} (o : outcome A) : keeps_x4 (lift o).
Proof. intro; reflexivity. Qed.
Lemma keeps_x4_write c : keeps_x4 (write_command c).
Proof. intro s. unfold write_command. destruct (serial s); reflexivity. Qed.
Lemma keeps_x4_read_from d pre : keeps_x4 (read_from d pre).
Proof.
  intro s. unfold read_from. destruct (serial s); [|reflexivity].
  destruct (read_loop d pre [] (rx s)); reflexivity.
Qed.

#[local] Hint Resolve keeps_x4_ret keeps_x4_raise keeps_x4_get keeps_x4_lift
  keeps_x4_write keeps_x4_read_from : keeps.

Ltac keeps_tac :=
  repeat match goal with
  | |- keeps_x4 (bind _ _) => apply keeps_x4_bind; [|intro]
  | |- keeps_x4 (modify _) => intro; reflexivity
  | |- keeps_x4 (if ?b then _ else _) => destruct b
  | |- keeps_x4 (match ?x with _ => _ end) => destruct x
  | |- _ => solve [eauto with keeps]
  end.

Lemma keeps_x4_update_samplers d pi : keeps_x4 (update_samplers d pi).
Proof. unfold update_samplers, read_response. keeps_tac. Qed.
#[local] Hint Resolve keeps_x4_update_samplers : keeps.

Lemma keeps_x4_open d pi cs : keeps_x4 (open d pi cs).
Proof. unfold open, read_response. keeps_tac. Qed.

Lemma keeps_x4_close d : keeps_x4 (close d).
Proof. unfold close, read_response. keeps_tac. Qed.

Lemma keeps_x4_process_frame e frame : keeps_x4 (process_frame e frame).
Proof. intro; reflexivity. Qed.
#[local] Hint Resolve keeps_x4_process_frame : keeps.

Lemma keeps_x4_get_frame_raw d e : keeps_x4 (get_frame_raw d e).
Proof. unfold get_frame_raw, read_frame. keeps_tac. Qed.

Lemma keeps_x4_get_frame_normalized d e : keeps_x4 (get_frame_normalized d e).
Proof. unfold get_frame_normalized, read_frame. keeps_tac. Qed.

Lemma keeps_x4_update_chip_other d pi ps name v :
  is_ddc_alias name = false -> keeps_x4 (update_chip d pi ps name v).
Proof. intro H. unfold update_chip, read_response. rewrite H. keeps_tac. Qed.

#[local] Hint Resolve keeps_x4_open keeps_x4_close keeps_x4_get_frame_raw
  keeps_x4_get_frame_normalized : keeps.

Lemma keeps_x4_step d pi ps e c :
  sets_ddc c = false -> keeps_x4 (step d pi ps e c).
Proof.
  intro Hc. destruct c; simpl in Hc; unfold step.
  - apply keeps_x4_open.
  - apply keeps_x4_close.
  - apply keeps_x4_bind; [apply keeps_x4_get_frame_raw | intro; apply keeps_x4_ret].
  - apply keeps_x4_bind; [apply keeps_x4_get_frame_normalized | intro; apply keeps_x4_ret].
  - apply keeps_x4_update_chip_other. exact Hc.
Qed.

Lemma run_keeps_x4 d pi ps e calls : forall s,
  forallb (fun c => negb (sets_ddc c)) calls = true ->
  x4_down_converter (run d pi ps e calls s) = x4_down_converter s.
Proof.
  induction calls as [|c calls IH]; intros s H; [reflexivity|].
  simpl in H. apply andb_prop in H as [Hc H].
  simpl. rewrite IH by assumption.
  apply keeps_x4_step. destruct (sets_ddc c); [discriminate|reflexivity].
Qed.

Lemma push_warnings_nil s : push_warnings [] s = s.
Proof. destruct s; unfold push_warnings; simpl; rewrite app_nil_r; reflexivity. Qed.

Lemma push_warnings_cons a l s : push_warnings l (push_warning a s) = push_warnings (a :: l) s.
Proof. destruct s; unfold push_warnings, push_warning; simpl; rewrite <- app_assoc; reflexivity. Qed.

Lemma bind_modify_eq {B} f (k : unit -> M B) s : bind (modify f) k s = k tt (f s).
Proof. reflexivity. Qed.

Lemma connect_from_S d opens n attempt fuel :
  connect_from d opens n attempt (S fuel) =
  if opens attempt then
    modify (set_serial (Some {| dtr := true; rts := true |})) ;;;
    write_command "NVA_CreateHandle()" ;;;
    read_response d ;;;
    ret tt
  else
    modify (push_warning (Z.of_nat attempt + 1)) ;;;
    if Z.of_nat attempt =? n - 1 then raise (ConnectionError "Failed to establish connection")
    else connect_from d opens n (S attempt) fuel.
Proof. reflexivity. Qed.

Lemma connect_from_fail d opens n : forall fuel attempt s,
  (1 <= fuel)%nat -> Z.of_nat (attempt + fuel) = n ->
  (forall k, (attempt <= k < attempt + fuel)%nat -> opens k = false) ->
  connect_from d opens n attempt fuel s =
  (Raise (ConnectionError "Failed to establish connection"),
   push_warnings (map (fun k => Z.of_nat k + 1) (seq attempt fuel)) s).
Proof.
  induction fuel as [|f IH]; intros attempt s H1 Hn Ho; [lia|].
  rewrite connect_from_S, (Ho attempt) by lia. rewrite bind_modify_eq.
  destruct (Z.of_nat attempt =? n - 1) eqn:E.
  - apply Z.eqb_eq in E. assert (f = 0%nat) by lia. subst f. reflexivity.
  - apply Z.eqb_neq in E. rewrite IH by (try lia; intros; apply Ho; lia).
    rewrite push_warnings_cons. reflexivity.
Qed.

Lemma connect_from_success d opens n : forall fuel attempt s,
  (1 <= fuel)%nat -> Z.of_nat (attempt + fuel) = n ->
  (forall k, (attempt <= k < attempt + fuel - 1)%nat -> opens k = false) ->
  opens (attempt + fuel - 1)%nat = true ->
  connect_from d opens n attempt fuel s =
  (modify (set_serial (Some {| dtr := true; rts := true |})) ;;;
   write_command "NVA_CreateHandle()" ;;;
   read_response d ;;;
   ret tt) (push_warnings (map (fun k => Z.of_nat k + 1) (seq attempt (fuel - 1))) s).
Proof.
  induction fuel as [|f IH]; intros attempt s H1 Hn Ho Hlast; [lia|].
  destruct f as [|f].
  - replace (attempt + 1 - 1)%nat with attempt in Hlast by lia.
    rewrite connect_from_S, Hlast. simpl seq. rewrite push_warnings_nil. reflexivity.
  - rewrite connect_from_S, (Ho attempt) by lia. rewrite bind_modify_eq.
    rewrite (proj2 (Z.eqb_neq _ _)) by lia.
    rewrite IH by first
      [ lia
      | intros; apply Ho; lia
      | replace (S attempt + S f - 1)%nat with (attempt + S (S f) - 1)%nat by lia; exact Hlast ].
    rewrite push_warnings_cons. replace (S (S f) - 1)%nat with (S (S f - 1)) by lia. reflexivity.
Qed.

(** C6 (amended).  [close] on an open session with an attached port writes
    [Close()] and waits for its acknowledgement.  Only when the
    acknowledgement arrives does it mark the session closed and release the
    port.  When the wait raises (an error frame, an undecodable message) that
    exception propagates out of [close], and when it never ends [close] never
    returns; either way the session stays open with its port attached and not
    released. *)
Theorem close_releases_only_on_ack (d : bytes -> option string) (s : St) (p : Serial) :
  is_open s = true -> serial s = Some p ->
  let sent := tx s ++ [encode "Close()" ++ [Byte.x0a]] in
  (forall payload rest, read_loop d "Radar error: " [] (rx s) = (Ok payload, rest) ->
     exists s', close d s = (Ok tt, s') /\ tx s' = sent /\ rx s' = rest /\
                is_open s' = false /\ serial s' = None /\ released s' = S (released s)) /\
  (forall x rest, read_loop d "Radar error: " [] (rx s) = (Raise x, rest) ->
     exists s', close d s = (Raise x, s') /\ tx s' = sent /\ rx s' = rest /\
                is_open s' = true /\ serial s' = Some p /\ released s' = released s) /\
  (forall rest, read_loop d "Radar error: " [] (rx s) = (Hang, rest) ->
     exists s', close d s = (Hang, s') /\ tx s' = sent /\
                is_open s' = true /\ serial s' = Some p /\ released s' = released s).
Proof.
  intros Ho Hs sent.
  unfold close, bind, get, ret, modify, write_command, read_response, read_from.
  rewrite Ho. simpl. rewrite Hs. simpl. rewrite Hs.
  destruct (read_loop d "Radar error: " [] (rx s)) as [[pl|x|] r] eqn:E; simpl; rewrite ?Hs;
    (split; [|split]); intros * Heq; try discriminate Heq;
    injection Heq as <-; try intros <-; eexists; repeat split; assumption.
Qed.

(** C7.  With [retry_attempts = N >= 1]: if opening the port fails on
    attempts 1 .. N-1 and succeeds on attempt N, and the device acknowledges
    the handshake, the connector is built without error, its port attached,
    and the N-1 failures only logged as warnings; if opening fails on all N
    attempts, exactly one [ConnectionError] is raised and the connector is
    left as [__init__] created it, with no port, apart from the N
    warnings. *)
Theorem connect_retries (d : bytes -> option string) (config : RadarConfig) (opens : nat -> bool) (device : bytes) :
  1 <= retry_attempts config ->
  ((forall k, (k < Z.to_nat (retry_attempts config) - 1)%nat -> opens k = false) ->
   opens (Z.to_nat (retry_attempts config) - 1)%nat = true ->
   forall payload rest, read_loop d "Radar error: " [] device = (Ok payload, rest) ->
   exists s', init d config opens device = (Ok tt, s') /\
     serial s' = Some {| dtr := true; rts := true |} /\
     warnings s' = map (fun k => Z.of_nat k + 1) (seq 0 (Z.to_nat (retry_attempts config) - 1))) /\
  ((forall k, (k < Z.to_nat (retry_attempts config))%nat -> opens k = false) ->
   init d config opens device =
     (Raise (ConnectionError "Failed to establish connection"),
      push_warnings (map (fun k => Z.of_nat k + 1) (seq 0 (Z.to_nat (retry_attempts config))))
                    (init_state device))).
Proof.
  intro H1. unfold init, connect. split.
  - intros Ho Hlast payload rest Hr.
    rewrite (connect_from_success d opens _ (Z.to_nat (retry_attempts config)) 0)
      by (simpl; first [lia | exact Hlast | intros; apply Ho; lia]).
    unfold bind, modify, write_command, read_response, read_from, ret. simpl.
    rewrite Hr. eexists; repeat split.
  - intro Ho. apply connect_from_fail; simpl; first [lia | intros; apply Ho; lia].
Qed.

(** C8.  [open] on an open session raises the already-open error and leaves
    the whole connector unchanged: same fields, nothing written. *)
Theorem open_already_open (d : bytes -> option string) (pi : string -> option Z)
    (connect_string : string) (s : St) :
  is_open s = true ->
  open d pi connect_string s = (Raise (RadarError "Radar connection already open"), s).
Proof. intro H. unfold open, bind, get. rewrite H. reflexivity. Qed.

(** C9.  [update_chip] on [ddc_en] or [DownConvert] with value [v] sets the
    decoding mode to [bool(v)] before sending the command, so even when the
    send fails; after any further calls that do not write that register,
    the mode is still [bool(v)], and a frame read decodes the bytes it
    received in that mode. *)
Theorem ddc_mode_from_last_update (d : bytes -> option string) (pi : string -> option Z)
    (ps : pynum -> string) (e : endian) (name : string) (v : pynum) (calls : list call) (s : St) :
  is_ddc_alias name = true ->
  forallb (fun c => negb (sets_ddc c)) calls = true ->
  x4_down_converter (snd (update_chip d pi ps name v s)) = py_bool v /\
  (serial s = None ->
   fst (update_chip d pi ps name v s) = Raise (ConnectionError "Serial connection not established")) /\
  let s' := run d pi ps e calls (snd (update_chip d pi ps name v s)) in
  x4_down_converter s' = py_bool v /\
  (forall p frame rest, serial s' = Some p ->
     read_loop d "Radar error during frame read: " [] (rx s') = (Ok frame, rest) ->
     fst (get_frame_raw d e s') = decode e (py_bool v) frame /\
     fst (get_frame_normalized d e s') = decode e (py_bool v) frame).
Proof.
  intros Ha Hc.
  assert (Hx : x4_down_converter (snd (update_chip d pi ps name v s)) = py_bool v).
  { unfold update_chip. rewrite Ha, bind_modify_eq.
    assert (Hk : keeps_x4 (write_command ("VarSetValue_ByName(" ++ name ++ "," ++ ps v ++ ")") ;;;
                          read_response d ;;; update_samplers d pi))
      by (unfold read_response; keeps_tac).
    rewrite Hk. reflexivity. }
  split; [exact Hx|]. split.
  - intro Hs. unfold update_chip. rewrite Ha, bind_modify_eq.
    unfold bind, write_command. simpl. rewrite Hs. reflexivity.
  - intro s'. assert (Hx' : x4_down_converter s' = py_bool v)
      by (unfold s'; rewrite run_keeps_x4 by assumption; exact Hx).
    clearbody s'. split; [exact Hx'|].
    intros p frame rest Hs Hr.
    unfold get_frame_raw, get_frame_normalized, bind, write_command, read_frame, read_from.
    rewrite Hs. simpl. rewrite Hs, Hr. simpl. unfold process_frame, bind, get, lift. simpl.
    rewrite Hx'. split; reflexivity.
Qed.

(** C10.  With [retry_attempts = 0] the loop of [_connect] runs no attempt:
    the connector is built without error and without a port, and the first
    command it writes, e.g. the one of [open], raises [ConnectionError]. *)
Theorem connect_zero_attempts (d : bytes -> option string) (pi : string -> option Z)
    (config : RadarConfig) (opens : nat -> bool) (device : bytes) :
  retry_attempts config = 0 ->
  init d config opens device = (Ok tt, init_state device) /\
  serial (init_state device) = None /\
  (forall command, write_command command (init_state device) =
     (Raise (ConnectionError "Serial connection not established"), init_state device)) /\
  (forall connect_string, open d pi connect_string (init_state device) =
     (Raise (ConnectionError "Serial connection not established"), init_state device)).
Proof.
  intro H0. unfold init, connect. rewrite H0. repeat split.
Qed.

(** ** Counterexamples *)

(** C1 fails: on [<ERR>Bad register\n] the loop raises as soon as it holds
    the 5 marker bytes, so the message is [Radar error: ] with no device
    text, and not [Bad register]. *)
Lemma read_response_bad_register_cex :
  fst (read_response ascii_decode (attached (encode "<ERR>Bad register" ++ [Byte.x0a])))
    = Raise (ProtocolError "Radar error: ") /\
  fst (read_response ascii_decode (attached (encode "<ERR>Bad register" ++ [Byte.x0a])))
    <> Raise (ProtocolError "Bad register").
Proof. split; vm_compute; [reflexivity | intro H; discriminate H]. Qed.

(** C2 fails: [abc<ACK>x<ACK>] ends in [<ACK>] and does not start with
    [<ERR>], yet the payload returned is [abc], not [abc<ACK>x]. *)
Lemma read_response_inner_ack_cex :
  last5 (rx (attached (encode "abc<ACK>x<ACK>"))) = ACK /\
  first5 (rx (attached (encode "abc<ACK>x<ACK>"))) <> ERR /\
  fst (read_response ascii_decode (attached (encode "abc<ACK>x<ACK>"))) = Ok (encode "abc") /\
  fst (read_response ascii_decode (attached (encode "abc<ACK>x<ACK>"))) <> Ok (encode "abc<ACK>x").
Proof.
  vm_compute. split; [reflexivity|]. split; [intro H; discriminate H|].
  split; [reflexivity | intro H; discriminate H].
Qed.

(** C5 fails: with the down-converter on, a 4-byte payload (not a multiple
    of 8) decodes without error to an empty complex array. *)
Lemma process_frame_four_bytes_cex :
  (List.length [Byte.x00; Byte.x00; Byte.x80; Byte.x3f] mod 8 <> 0)%nat /\
  fst (process_frame LittleEndian [Byte.x00; Byte.x00; Byte.x80; Byte.x3f]
                     (set_x4_down_converter true (attached []))) = Ok (CplxArr []).
Proof. split; [discriminate | reflexivity]. Qed.

(** C6 fails: an open session whose device answers [Close()] with [<ERR>]
    raises from [close] and stays open, port attached, never released. *)
Lemma close_error_frame_cex :
  fst (close ascii_decode (opened (encode "<ERR>"))) = Raise (ProtocolError "Radar error: ") /\
  is_open (snd (close ascii_decode (opened (encode "<ERR>")))) = true /\
  serial (snd (close ascii_decode (opened (encode "<ERR>")))) = Some {| dtr := true; rts := true |} /\
  released (snd (close ascii_decode (opened (encode "<ERR>")))) = 0%nat.
Proof. vm_compute. repeat split. Qed.

(** ** Witnesses *)

Lemma read_response_err_prefix_witness :
  exists msg, fst (read_response ascii_decode (attached (ERR ++ encode "Bad register")))
              = Raise (ProtocolError ("Radar error: " ++ msg)).
Proof.
  apply (read_response_err_prefix ascii_decode (attached (ERR ++ encode "Bad register"))
           {| dtr := true; rts := true |} (encode "Bad register")); reflexivity.
Defined.

Lemma read_response_first_ack_witness :
  read_response ascii_decode (attached (encode "abc<ACK>"))
  = (Ok (encode "abc"), set_rx [] (attached (encode "abc<ACK>"))).
Proof.
  apply (read_response_first_ack ascii_decode (attached (encode "abc<ACK>"))
           {| dtr := true; rts := true |} (encode "abc") []).
  - reflexivity.
  - reflexivity.
  - vm_compute. intro H; discriminate H.
  - intros q r H. assert (Hl := f_equal (@List.length Byte.byte) H).
    rewrite !length_app in Hl. simpl in Hl.
    destruct q as [|a1 [|a2 [|a3 [|a4 q]]]]; simpl in Hl; try lia;
      vm_compute in H; try discriminate H.
    injection H as _ _ _ Hr. exact (eq_sym Hr).
Defined.

Lemma process_frame_real_witness :
  exists ws, process_frame LittleEndian one_inf_payload (attached []) = (Ok (RealArr ws), attached []) /\
    List.length ws = 2%nat /\
    forall i, (i < 2)%nat ->
      nth i ws 0 =
      word_of_bytes LittleEndian (nth (4 * i) one_inf_payload Byte.x00) (nth (4 * i + 1) one_inf_payload Byte.x00)
                    (nth (4 * i + 2) one_inf_payload Byte.x00) (nth (4 * i + 3) one_inf_payload Byte.x00).
Proof. apply (process_frame_real LittleEndian (attached []) one_inf_payload 2); reflexivity. Defined.

Lemma close_releases_only_on_ack_witness :
  (exists s', close ascii_decode (opened (encode "<ACK>")) = (Ok tt, s') /\
     tx s' = [encode "Close()" ++ [Byte.x0a]] /\ rx s' = [] /\
     is_open s' = false /\ serial s' = None /\ released s' = 1%nat) /\
  (exists s', close ascii_decode (opened (encode "<ERR>busy")) =
                (Raise (ProtocolError "Radar error: "), s') /\
     tx s' = [encode "Close()" ++ [Byte.x0a]] /\ rx s' = encode "busy" /\
     is_open s' = true /\ serial s' = Some {| dtr := true; rts := true |} /\ released s' = 0%nat).
Proof.
  split.
  - destruct (close_releases_only_on_ack ascii_decode (opened (encode "<ACK>"))
                {| dtr := true; rts := true |} eq_refl eq_refl) as [Hack _].
    apply (Hack [] []). reflexivity.
  - destruct (close_releases_only_on_ack ascii_decode (opened (encode "<ERR>busy"))
                {| dtr := true; rts := true |} eq_refl eq_refl) as [_ [Herr _]].
    apply (Herr (ProtocolError "Radar error: ") (encode "busy")). vm_compute. reflexivity.
Defined.

Lemma connect_retries_witness :
  exists s', init ascii_decode (config_with "/dev/ttyUSB0" 3) (fun k => Nat.eqb k 2) ACK = (Ok tt, s') /\
             serial s' = Some {| dtr := true; rts := true |} /\ warnings s' = [1; 2].
Proof.
  destruct (connect_retries ascii_decode (config_with "/dev/ttyUSB0" 3) (fun k => Nat.eqb k 2) ACK)
    as [Hok _]; [simpl; lia|].
  refine (Hok _ _ [] [] _).
  - intros k Hk. simpl in Hk. destruct k as [|[|k]]; [reflexivity | reflexivity | lia].
  - reflexivity.
  - reflexivity.
Defined.

Lemma open_already_open_witness :
  open ascii_decode dec_int "X4" (opened []) = (Raise (RadarError "Radar connection already open"), opened []).
Proof. apply open_already_open. reflexivity. Defined.

(** The device acknowledges the register write, reports 8 samplers, then
    sends one frame. *)
Lemma ddc_mode_from_last_update_witness :
  fst (get_frame_raw ascii_decode LittleEndian
         (run ascii_decode dec_int (fun _ => "1"%string) LittleEndian []
            (snd (update_chip ascii_decode dec_int (fun _ => "1"%string) "ddc_en" (PInt 1)
                    (attached (ACK ++ encode "8" ++ ACK ++ one_inf_payload ++ ACK))))))
  = decode LittleEndian (py_bool (PInt 1)) one_inf_payload.
Proof.
  pose proof (ddc_mode_from_last_update ascii_decode dec_int (fun _ => "1"%string) LittleEndian
                "ddc_en" (PInt 1) [] (attached (ACK ++ encode "8" ++ ACK ++ one_inf_payload ++ ACK))
                eq_refl eq_refl) as H.
  cbv zeta in H. destruct H as [_ [_ [_ Hf]]].
  apply (Hf {| dtr := true; rts := true |} one_inf_payload []); vm_compute; reflexivity.
Defined.

Lemma connect_zero_attempts_witness :
  init ascii_decode (config_with "/dev/ttyUSB0" 0) (fun _ => true) ACK = (Ok tt, init_state ACK).
Proof.
  destruct (connect_zero_attempts ascii_decode dec_int (config_with "/dev/ttyUSB0" 0) (fun _ => true) ACK eq_refl)
    as [H _].
  exact H.
Defined.

(** ** Further session properties *)

Lemma update_samplers_eq d pi s p :
  serial s = Some p ->
  update_samplers d pi s =
  let s1 := push_tx (encode "VarGetValue_ByName(SamplersPerFrame)" ++ [Byte.x0a]) s in
  match read_loop d "Radar error: " [] (rx s) with
  | (Ok pl, r) =>
      match d pl with
      | None => (Raise UnicodeDecodeError, set_rx r s1)
      | Some t =>
          match pi t with
          | None => (Raise (ValueError "invalid literal for int()"), set_rx r s1)
          | Some n => (Ok tt, set_num_samplers n (set_rx r s1))
          end
      end
  | (Raise x, r) => (Raise x, set_rx r s1)
  | (Hang, r) => (Hang, set_rx r s1)
  end.
Proof.
  intro Hs. unfold update_samplers, bind, write_command, read_response, read_from.
  rewrite Hs. cbn [serial push_tx rx]. rewrite Hs.
  destruct (read_loop d "Radar error: " [] (rx s)) as [[pl|x|] r]; [|reflexivity|reflexivity].
  unfold raise, modify. destruct (d pl) as [t|]; [destruct (pi t)|]; reflexivity.
Qed.

(** [_update_samplers] once the reply has been read up to its
    acknowledgement. *)
Lemma update_samplers_reply d pi s p pl r :
  serial s = Some p ->
  read_loop d "Radar error: " [] (rx s) = (Ok pl, r) ->
  let s1 := set_rx r (push_tx (encode "VarGetValue_ByName(SamplersPerFrame)" ++ [Byte.x0a]) s) in
  update_samplers d pi s =
    match d pl with
    | None => (Raise UnicodeDecodeError, s1)
    | Some t =>
        match pi t with
        | None => (Raise (ValueError "invalid literal for int()"), s1)
        | Some n => (Ok tt, set_num_samplers n s1)
        end
    end.
Proof. intros Hs Hr. rewrite (update_samplers_eq d pi s p Hs), Hr. reflexivity. Qed.

Lemma update_samplers_is_open d pi s : is_open (snd (update_samplers d pi s)) = is_open s.
Proof.
  destruct (serial s) as [p|] eqn:Hs.
  - rewrite (update_samplers_eq d pi s p Hs).
    destruct (read_loop d "Radar error: " [] (rx s)) as [[pl|x|] r]; [|reflexivity|reflexivity].
    destruct (d pl) as [t|]; [destruct (pi t)|]; reflexivity.
  - unfold update_samplers, bind, write_command. rewrite Hs. reflexivity.
Qed.

Lemma update_samplers_fail_count d pi s :
  fst (update_samplers d pi s) <> Ok tt -> num_samplers (snd (update_samplers d pi s)) = num_samplers s.
Proof.
  destruct (serial s) as [p|] eqn:Hs.
  - rewrite (update_samplers_eq d pi s p Hs).
    destruct (read_loop d "Radar error: " [] (rx s)) as [[pl|x|] r]; [|reflexivity|reflexivity].
    destruct (d pl) as [t|]; [destruct (pi t)|]; simpl; try reflexivity.
    intro H; exfalso; apply H; reflexivity.
  - unfold update_samplers, bind, write_command. rewrite Hs. reflexivity.
Qed.

Lemma open_eq d pi cs s p :
  is_open s = false -> serial s = Some p ->
  open d pi cs s =
  let s0 := push_tx (encode ("OpenRadar(" ++ cs ++ ")") ++ [Byte.x0a]) s in
  match read_loop d "Radar error: " [] (rx s) with
  | (Ok _, r) => update_samplers d pi (set_is_open true (set_rx r s0))
  | (Raise x, r) => (Raise x, set_rx r s0)
  | (Hang, r) => (Hang, set_rx r s0)
  end.
Proof.
  intros Ho Hs. unfold open, bind, get, write_command, read_response, read_from.
  rewrite Ho, Hs. cbn [serial push_tx rx]. rewrite Hs.
  destruct (read_loop d "Radar error: " [] (rx s)) as [[pl|x|] r]; reflexivity.
Qed.

(** [open] on a closed session: an error answer to [OpenRadar] is raised
    with the session still closed and nothing else sent; when both the
    [OpenRadar] and the sampler query are acknowledged, the session is open
    with the reported sampler count after exactly these two writes; when
    [OpenRadar] is acknowledged but the sampler query fails, [open] fails yet
    the session is already marked open and the count is unchanged. *)
Theorem open_exchange d pi cs s p :
  is_open s = false -> serial s = Some p ->
  let o := encode ("OpenRadar(" ++ cs ++ ")") ++ [Byte.x0a] in
  let q := encode "VarGetValue_ByName(SamplersPerFrame)" ++ [Byte.x0a] in
  (forall x r, read_loop d "Radar error: " [] (rx s) = (Raise x, r) ->
     open d pi cs s = (Raise x, set_rx r (push_tx o s))) /\
  (forall pl1 r1 pl2 r2 t n,
     read_loop d "Radar error: " [] (rx s) = (Ok pl1, r1) ->
     read_loop d "Radar error: " [] r1 = (Ok pl2, r2) -> d pl2 = Some t -> pi t = Some n ->
     exists s', open d pi cs s = (Ok tt, s') /\ is_open s' = true /\ num_samplers s' = n /\
       tx s' = tx s ++ [o; q] /\ rx s' = r2 /\ serial s' = serial s /\
       x4_down_converter s' = x4_down_converter s) /\
  (forall pl1 r1, read_loop d "Radar error: " [] (rx s) = (Ok pl1, r1) ->
     fst (open d pi cs s) <> Ok tt ->
     is_open (snd (open d pi cs s)) = true /\ num_samplers (snd (open d pi cs s)) = num_samplers s).
Proof.
  intros Ho Hs o q. rewrite (open_eq d pi cs s p Ho Hs). split; [|split].
  - intros x r Hr. rewrite Hr. reflexivity.
  - intros pl1 r1 pl2 r2 t n Hr1 Hr2 Hd Hp. rewrite Hr1. cbv zeta.
    rewrite (update_samplers_eq d pi _ p) by exact Hs. cbn [rx set_rx set_is_open push_tx].
    rewrite Hr2, Hd, Hp. eexists; split; [reflexivity|].
    cbn. rewrite <- app_assoc. repeat split; reflexivity.
  - intros pl1 r1 Hr1. rewrite Hr1. cbv zeta. intro Hf. split.
    + rewrite update_samplers_is_open. reflexivity.
    + rewrite update_samplers_fail_count by exact Hf. reflexivity.
Qed.

Lemma close_eq d s p :
  is_open s = true -> serial s = Some p ->
  close d s =
  let s0 := push_tx (encode "Close()" ++ [Byte.x0a]) s in
  match read_loop d "Radar error: " [] (rx s) with
  | (Ok _, r) => (Ok tt, set_serial None (bump_released (set_is_open false (set_rx r s0))))
  | (Raise x, r) => (Raise x, set_rx r s0)
  | (Hang, r) => (Hang, set_rx r s0)
  end.
Proof.
  intros Ho Hs. unfold close, bind, get, ret, modify, write_command, read_response, read_from.
  rewrite Ho. simpl. rewrite Hs. simpl. rewrite Hs.
  destruct (read_loop d "Radar error: " [] (rx s)) as [[pl|x|] r]; simpl; rewrite ?Hs; reflexivity.
Qed.

Lemma close_closed d s : is_open s = false -> close d s = (Ok tt, s).
Proof. intro H. unfold close, bind, get, ret. rewrite H. reflexivity. Qed.

(** [close] on a closed session does nothing; after a [close] that returns
    normally the session is closed, and a second [close] sends nothing and
    changes nothing. *)
Theorem close_idempotent d s :
  (is_open s = false -> close d s = (Ok tt, s)) /\
  (fst (close d s) = Ok tt ->
   is_open (snd (close d s)) = false /\ close d (snd (close d s)) = (Ok tt, snd (close d s))).
Proof.
  split; [apply close_closed|]. intro Hok.
  assert (Hc : is_open (snd (close d s)) = false).
  { destruct (is_open s) eqn:Ho.
    - destruct (serial s) as [p|] eqn:Hs.
      + rewrite (close_eq d s p Ho Hs) in *.
        destruct (read_loop d "Radar error: " [] (rx s)) as [[pl|x|] r]; simpl in *;
          [reflexivity | discriminate | discriminate].
      + unfold close, bind, get, write_command in Hok. rewrite Ho in Hok. simpl in Hok. rewrite Hs in Hok. discriminate.
    - rewrite close_closed by exact Ho. exact Ho. }
  split; [exact Hc|]. apply close_closed. exact Hc.
Qed.

(** When the device answers [OpenRadar] with an error, the [connection]
    context manager raises that error without running the [with] block and
    without sending [Close()]: [close] finds the session not open. *)
Theorem connection_open_error d pi cs body s p x r :
  is_open s = false -> serial s = Some p ->
  read_loop d "Radar error: " [] (rx s) = (Raise x, r) ->
  connection d pi cs body s =
    (Raise x, set_rx r (push_tx (encode ("OpenRadar(" ++ cs ++ ")") ++ [Byte.x0a]) s)).
Proof.
  intros Ho Hs Hr. unfold connection, try_finally, bind at 1.
  rewrite (open_eq d pi cs s p Ho Hs), Hr. cbv zeta.
  cbv beta iota zeta. rewrite close_closed by exact Ho. reflexivity.
Qed.

(** After a successful [open], whatever the [with] block returns or raises,
    [connection] calls [close]: when [Close()] is acknowledged the port is
    released and the block's result (its exception included) is passed on;
    when waiting for that acknowledgement raises, this exception replaces the
    block's result and the session stays open. *)
Theorem connection_closes_after_body d pi cs body s s1 o s2 p :
  open d pi cs s = (Ok tt, s1) -> body s1 = (o, s2) -> o <> Hang ->
  is_open s2 = true -> serial s2 = Some p ->
  (forall pl r, read_loop d "Radar error: " [] (rx s2) = (Ok pl, r) ->
   exists s3, connection d pi cs body s = (o, s3) /\ is_open s3 = false /\ serial s3 = None /\
     released s3 = S (released s2) /\ tx s3 = tx s2 ++ [encode "Close()" ++ [Byte.x0a]] /\ rx s3 = r) /\
  (forall y r, read_loop d "Radar error: " [] (rx s2) = (Raise y, r) ->
   exists s3, connection d pi cs body s = (Raise y, s3) /\ is_open s3 = true).
Proof.
  intros Hop Hb Hh Ho Hs.
  assert (Hc : connection d pi cs body s =
    let (o', s3) := close d s2 in
    match o' with Ok _ => (o, s3) | Raise x => (Raise x, s3) | Hang => (Hang, s3) end).
  { unfold connection, try_finally, bind at 1.
    rewrite Hop. cbv beta iota. rewrite Hb. destruct o; [reflexivity | reflexivity | contradiction]. }
  rewrite Hc, (close_eq d s2 p Ho Hs). split.
  - intros pl r Hr. rewrite Hr. cbv zeta.
    eexists; split; [reflexivity|]. repeat split; reflexivity.
  - intros y r Hr. rewrite Hr. cbv zeta.
    eexists; split; [reflexivity|]. exact Ho.
Qed.

Lemma command_then_samplers d pi c s p pl r :
  serial s = Some p ->
  read_loop d "Radar error: " [] (rx s) = (Ok pl, r) ->
  (write_command c ;;; read_response d ;;; update_samplers d pi) s =
  update_samplers d pi (set_rx r (push_tx (encode c ++ [Byte.x0a]) s)).
Proof.
  intros Hs Hr. unfold bind at 1, write_command. rewrite Hs.
  unfold bind, read_response, read_from. cbn [serial push_tx rx]. rewrite Hs, Hr. reflexivity.
Qed.

(** [update_chip] with both answers acknowledged writes exactly the
    [VarSetValue_ByName(name,value)] command and the sampler query, sets the
    sampler count from the second reply, leaves the session state and the
    port as they were, and changes the decoding mode only for [ddc_en] and
    [DownConvert]. *)
Theorem update_chip_exchange d pi ps name v s p pl1 r1 pl2 r2 t n :
  serial s = Some p ->
  read_loop d "Radar error: " [] (rx s) = (Ok pl1, r1) ->
  read_loop d "Radar error: " [] r1 = (Ok pl2, r2) -> d pl2 = Some t -> pi t = Some n ->
  exists s', update_chip d pi ps name v s = (Ok tt, s') /\
    tx s' = tx s ++ [encode ("VarSetValue_ByName(" ++ name ++ "," ++ ps v ++ ")") ++ [Byte.x0a];
                     encode "VarGetValue_ByName(SamplersPerFrame)" ++ [Byte.x0a]] /\
    num_samplers s' = n /\ rx s' = r2 /\ is_open s' = is_open s /\ serial s' = serial s /\
    x4_down_converter s' = (if is_ddc_alias name then py_bool v else x4_down_converter s).
Proof.
  intros Hs Hr1 Hr2 Hd Hp. unfold update_chip.
  set (s0 := if is_ddc_alias name then set_x4_down_converter (py_bool v) s else s).
  assert (H0 : (if is_ddc_alias name then modify (set_x4_down_converter (py_bool v)) else ret tt) s = (Ok tt, s0))
    by (unfold s0; destruct (is_ddc_alias name); reflexivity).
  assert (Hs0 : serial s0 = Some p) by (unfold s0; destruct (is_ddc_alias name); exact Hs).
  assert (Hr0 : rx s0 = rx s) by (unfold s0; destruct (is_ddc_alias name); reflexivity).
  unfold bind at 1. rewrite H0.
  rewrite (command_then_samplers d pi _ s0 p pl1 r1) by (rewrite ?Hr0; assumption).
  rewrite (update_samplers_reply d pi _ p pl2 r2) by (cbn; assumption).
  rewrite Hd, Hp. eexists; split; [reflexivity|].
  unfold s0; destruct (is_ddc_alias name); cbn; rewrite <- app_assoc; repeat split; congruence.
Qed.

(** Reading a frame, raw or normalized, changes none of the session fields
    (open flag, sampler count, decoding mode, port, releases, warnings), and
    writes at most its one command, whatever happens. *)
Theorem get_frame_keeps_session d e s :
  (let s' := snd (get_frame_raw d e s) in
   is_open s' = is_open s /\ num_samplers s' = num_samplers s /\
   x4_down_converter s' = x4_down_converter s /\ serial s' = serial s /\
   released s' = released s /\ warnings s' = warnings s /\
   (tx s' = tx s \/ tx s' = tx s ++ [encode "GetFrameRaw()" ++ [Byte.x0a]])) /\
  (let s' := snd (get_frame_normalized d e s) in
   is_open s' = is_open s /\ num_samplers s' = num_samplers s /\
   x4_down_converter s' = x4_down_converter s /\ serial s' = serial s /\
   released s' = released s /\ warnings s' = warnings s /\
   (tx s' = tx s \/ tx s' = tx s ++ [encode "GetFrameNormalized()" ++ [Byte.x0a]])).
Proof.
  split; unfold get_frame_raw, get_frame_normalized, bind, write_command, read_frame, read_from;
  (destruct (serial s) as [p|] eqn:Hs; cbn [serial push_tx rx]; rewrite ?Hs;
   [destruct (read_loop _ _ _ _) as [[fr|x|] r]|]; cbn;
   repeat split; try assumption; first [left; reflexivity | right; reflexivity]).
Qed.

Lemma quiet_no_marker (x : bytes) k :
  first5 x <> ERR -> (forall q r, x <> q ++ ACK ++ r) ->
  (1 <= k <= List.length x)%nat -> quiet (firstn k x) = true.
Proof.
  intros Herr Hocc Hk.
  assert (Hlen : List.length (firstn k x) = k) by (rewrite length_firstn; lia).
  unfold quiet. apply andb_true_intro; split; apply negb_true_iff.
  - destruct (5 <=? List.length (firstn k x))%nat eqn:E5; [|reflexivity]. simpl.
    destruct (bytes_eqb (last5 (firstn k x)) ACK) eqn:EA; [|reflexivity].
    apply bytes_eqb_eq, last5_split in EA. exfalso.
    apply (Hocc (firstn (List.length (firstn k x) - 5) (firstn k x)) (skipn k x)).
    rewrite app_assoc, <- EA. symmetry. apply firstn_skipn.
  - destruct (5 <=? List.length (firstn k x))%nat eqn:E5; [|reflexivity]. simpl.
    apply Nat.leb_le in E5. rewrite Hlen in E5.
    rewrite first5_firstn by lia.
    destruct (bytes_eqb (first5 x) ERR) eqn:EE; [|reflexivity].
    apply bytes_eqb_eq in EE. contradiction.
Qed.

(** When the bytes the device sends contain no [<ACK>] and do not start with
    [<ERR>], [_read_response] and [_read_frame] consume them all and then
    wait forever. *)
Theorem read_hangs_without_marker d s p :
  serial s = Some p -> first5 (rx s) <> ERR -> (forall q r, rx s <> q ++ ACK ++ r) ->
  read_response d s = (Hang, set_rx [] s) /\ read_frame d s = (Hang, set_rx [] s).
Proof.
  intros Hs Herr Hocc.
  assert (H : forall pre, read_loop d pre [] (rx s) = (Hang, [])).
  { intro pre. rewrite <- (app_nil_r (rx s)) at 1.
    rewrite read_loop_skip; [reflexivity|].
    intros k Hk. apply quiet_no_marker; assumption. }
  unfold read_response, read_frame, read_from. rewrite Hs, !H. split; reflexivity.
Qed.

(** An error answer to [NVA_CreateHandle()] (or no answer) on the first
    attempt is not retried by [_connect], whatever the number of attempts:
    the exception escapes [__init__] with no warning logged and the port left
    attached. *)
Theorem connect_handshake_error d config opens device :
  1 <= retry_attempts config -> opens 0%nat = true ->
  let s0 := push_tx (encode "NVA_CreateHandle()" ++ [Byte.x0a])
              (set_serial (Some {| dtr := true; rts := true |}) (init_state device)) in
  (forall x r, read_loop d "Radar error: " [] device = (Raise x, r) ->
     init d config opens device = (Raise x, set_rx r s0)) /\
  (forall r, read_loop d "Radar error: " [] device = (Hang, r) ->
     init d config opens device = (Hang, set_rx r s0)).
Proof.
  intros H1 Ho s0. unfold init, connect.
  destruct (Z.to_nat (retry_attempts config)) as [|f] eqn:Ef; [lia|].
  rewrite connect_from_S, Ho.
  unfold bind, modify, write_command, read_response, read_from. cbn.
  split; intros; match goal with H : read_loop _ _ _ _ = _ |- _ => rewrite H end; reflexivity.
Qed.

Lemma bind_ok {A B} (m : M A) (k : A -> M B) s b s' :
  bind m k s = (Ok b, s') -> exists a s1, m s = (Ok a, s1) /\ k a s1 = (Ok b, s').
Proof.
  unfold bind. destruct (m s) as [[a|x|] s1]; intro H; [eauto | discriminate | discriminate].
Qed.

Lemma update_chip_alias_x4 d pi ps name v s :
  is_ddc_alias name = true -> x4_down_converter (snd (update_chip d pi ps name v s)) = py_bool v.
Proof.
  intro Ha. unfold update_chip. rewrite Ha, bind_modify_eq.
  assert (Hk : keeps_x4 (write_command ("VarSetValue_ByName(" ++ name ++ "," ++ ps v ++ ")") ;;;
                        read_response d ;;; update_samplers d pi)).
  { apply keeps_x4_bind; [apply keeps_x4_write|intro].
    apply keeps_x4_bind; [apply keeps_x4_read_from|intro]. apply keeps_x4_update_samplers. }
  rewrite Hk. reflexivity.
Qed.

Lemma keeps_x4_ok {A} (m : M A) s a s' : keeps_x4 m -> m s = (Ok a, s') -> x4_down_converter s' = x4_down_converter s.
Proof. intros Hk Hm. specialize (Hk s). rewrite Hm in Hk. exact Hk. Qed.

(** [configure_radar] of radar_test.py, when it returns normally, leaves the
    connector decoding complex (down-converted) frames; those of
    collect_visual.py and period_collect.py leave it decoding real frames. *)
Theorem configure_radar_mode d pi ps s :
  (fst (RadarTest.configure_radar d pi ps s) = Ok tt ->
   x4_down_converter (snd (RadarTest.configure_radar d pi ps s)) = true) /\
  (fst (RadarVisualizer.configure_radar d pi ps s) = Ok tt ->
   x4_down_converter (snd (RadarVisualizer.configure_radar d pi ps s)) = false) /\
  (fst (PracticalRadarTest.configure_radar d pi ps s) = Ok tt ->
   x4_down_converter (snd (PracticalRadarTest.configure_radar d pi ps s)) = false).
Proof.
  split; [|split].
  - unfold RadarTest.configure_radar.
    destruct (bind _ _ s) as [o s'] eqn:E. simpl. intros ->.
    apply bind_ok in E as [? [s1 [_ E]]]. apply bind_ok in E as [? [s2 [_ E]]].
    apply bind_ok in E as [? [s3 [_ E]]].
    pose proof (update_chip_alias_x4 d pi ps "ddc_en" (PInt 1) s3 eq_refl) as H.
    rewrite E in H. exact H.
  - unfold RadarVisualizer.configure_radar.
    destruct (bind _ _ s) as [o s'] eqn:E. simpl. intros ->.
    apply bind_ok in E as [? [s1 [_ E]]]. apply bind_ok in E as [? [s2 [_ E]]].
    apply bind_ok in E as [? [s3 [_ E]]]. apply bind_ok in E as [? [s4 [E4 E]]].
    apply bind_ok in E as [? [s5 [E5 E]]].
    pose proof (update_chip_alias_x4 d pi ps "ddc_en" (PInt 0) s3 eq_refl) as H.
    rewrite E4 in H. simpl in H.
    rewrite (keeps_x4_ok _ _ _ _ (keeps_x4_update_chip_other d pi ps "tx_power" (PInt 3) eq_refl) E).
    rewrite (keeps_x4_ok _ _ _ _ (keeps_x4_update_chip_other d pi ps "tx_region" (PInt 3) eq_refl) E5).
    exact H.
  - unfold PracticalRadarTest.configure_radar.
    destruct (bind _ _ s) as [o s'] eqn:E. simpl. intros ->.
    apply bind_ok in E as [? [s1 [_ E]]]. apply bind_ok in E as [? [s2 [_ E]]].
    apply bind_ok in E as [? [s3 [_ E]]]. apply bind_ok in E as [? [s4 [E4 E]]].
    apply bind_ok in E as [? [s5 [E5 E]]].
    pose proof (update_chip_alias_x4 d pi ps "ddc_en" (PInt 0) s3 eq_refl) as H.
    rewrite E4 in H. simpl in H.
    rewrite (keeps_x4_ok _ _ _ _ (keeps_x4_update_chip_other d pi ps "tx_power" (PInt 3) eq_refl) E).
    rewrite (keeps_x4_ok _ _ _ _ (keeps_x4_update_chip_other d pi ps "tx_region" (PInt 3) eq_refl) E5).
    exact H.
Qed.

(** ** Port detection *)

Lemma scan_ports_spec sys ports :
  (forall p, scan_ports sys ports = Some p ->
     exists pre post, ports = pre ++ p :: post /\ radar_port_name sys p = true /\
                      forallb (fun x => negb (radar_port_name sys x)) pre = true) /\
  (scan_ports sys ports = None <-> forallb (fun x => negb (radar_port_name sys x)) ports = true).
Proof.
  induction ports as [|x ports [IHs IHn]]; simpl.
  - split; [discriminate | tauto].
  - unfold radar_port_name at 1 3.
    destruct (String.eqb sys "linux" && (contains "ttyUSB" x || contains "ttyACM" x)) eqn:E1; simpl.
    + split; [|split; discriminate].
      intros p [= <-]. exists [], ports. unfold radar_port_name. rewrite E1. auto.
    + destruct (String.eqb sys "windows" && startswith x "COM") eqn:E2; simpl.
      * split; [|split; discriminate].
        intros p [= <-]. exists [], ports. unfold radar_port_name. rewrite E1, E2. auto.
      * split; [|exact IHn].
        intros p Hp. destruct (IHs p Hp) as [pre [post [-> [Hm Hpre]]]].
        exists (x :: pre), post. split; [reflexivity|]. split; [exact Hm|].
        simpl. unfold radar_port_name at 1. rewrite E1, E2. exact Hpre.
Qed.

(** [find_radar_port] returns the first listed port whose name fits the
    platform ([ttyUSB] or [ttyACM] in it on Linux, a [COM] prefix on
    Windows), [None] exactly when no listed port fits, and always [None] on
    any other platform. *)
Theorem find_radar_port_first sys ports :
  (forall p, find_radar_port sys ports = Some p ->
     exists pre post, ports = pre ++ p :: post /\ radar_port_name (lower sys) p = true /\
                      forallb (fun x => negb (radar_port_name (lower sys) x)) pre = true) /\
  (find_radar_port sys ports = None <->
     forallb (fun x => negb (radar_port_name (lower sys) x)) ports = true) /\
  (lower sys <> "linux"%string -> lower sys <> "windows"%string -> find_radar_port sys ports = None).
Proof.
  unfold find_radar_port. destruct ports as [|x ports].
  - split; [discriminate|]. split; [simpl; tauto|]. reflexivity.
  - destruct (scan_ports_spec (lower sys) (x :: ports)) as [Hs Hn]. split; [exact Hs|].
    split; [exact Hn|]. intros Hl Hw. apply Hn. apply forallb_forall. intros y _.
    unfold radar_port_name. apply String.eqb_neq in Hl, Hw. rewrite Hl, Hw. reflexivity.
Qed.

Lemma radar_port_name_nonempty sys : radar_port_name sys "" = false.
Proof. unfold radar_port_name. destruct (String.eqb sys "linux"), (String.eqb sys "windows"); reflexivity. Qed.

(** [create_default] gives 115200 baud, a 5.0 s timeout, 20 attempts and
    packet version 0, and a port that is never empty: the detected one, or
    [COM3] on Windows and [/dev/ttyUSB0] elsewhere when none is found, so
    always [/dev/ttyUSB0] on a platform other than Linux and Windows. *)
Theorem create_default_config sys ports :
  let c := create_default sys ports in
  baudrate c = 115200 /\ timeout c = py_five /\ retry_attempts c = 20 /\ packet_version c = 0 /\
  com_port c <> EmptyString /\
  (forall p, find_radar_port sys ports = Some p -> com_port c = p) /\
  (find_radar_port sys ports = None ->
   com_port c = if String.eqb (lower sys) "windows" then "COM3"%string else "/dev/ttyUSB0"%string) /\
  (lower sys <> "linux"%string -> lower sys <> "windows"%string -> com_port c = "/dev/ttyUSB0"%string).
Proof.
  destruct (find_radar_port_first sys ports) as [Hs [Hn Ho]].
  cbv zeta. unfold create_default. cbn [com_port baudrate timeout retry_attempts packet_version].
  assert (Hne : forall p, find_radar_port sys ports = Some p -> p <> EmptyString).
  { intros p Hp ->. destruct (Hs _ Hp) as [pre [post [_ [Hm _]]]].
    rewrite radar_port_name_nonempty in Hm. discriminate. }
  assert (Hfb : (if String.eqb (lower sys) "windows" then "COM3"%string else "/dev/ttyUSB0"%string) <> EmptyString)
    by (destruct (String.eqb (lower sys) "windows"); discriminate).
  destruct (find_radar_port sys ports) as [p|] eqn:Ef.
  - assert (Hp : p <> EmptyString) by (apply Hne; reflexivity).
    apply String.eqb_neq in Hp as Hp'. rewrite Hp'.
    do 4 (split; [reflexivity|]). split; [exact Hp|]. split; [intros q Hq; congruence|].
    split; [discriminate|]. intros Hl Hw. specialize (Ho Hl Hw). congruence.
  - do 4 (split; [reflexivity|]). split; [exact Hfb|]. split; [discriminate|].
    split; [reflexivity|]. intros Hl Hw. apply String.eqb_neq in Hw. rewrite Hw. reflexivity.
Qed.

(** ** Port names *)

Lemma is_digit_char k : (k < 10)%nat -> is_digit (ascii_of_nat (48 + k)) = true.
Proof.
  intro H. unfold is_digit. rewrite nat_ascii_embedding by lia.
  apply andb_true_intro; split; apply Nat.leb_le; lia.
Qed.

Lemma digit_value_char k : (k < 10)%nat -> digit_value (ascii_of_nat (48 + k)) = Z.of_nat k.
Proof. intro H. unfold digit_value. rewrite nat_ascii_embedding by lia. lia. Qed.

Lemma digit_not_space c : is_digit c = true -> py_space c = false.
Proof.
  unfold is_digit, py_space. intro H. apply andb_prop in H as [H1 H2].
  apply Nat.leb_le in H1, H2. set (n := nat_of_ascii c) in *.
  destruct (Nat.leb_spec 9 n), (Nat.leb_spec n 13), (Nat.leb_spec 28 n), (Nat.leb_spec n 32);
    simpl; try reflexivity; lia.
Qed.

Lemma letter_not_digit c : is_letter c = true -> is_digit c = false.
Proof.
  unfold is_letter, is_digit. set (n := nat_of_ascii c).
  destruct (Nat.leb_spec 65 n), (Nat.leb_spec n 90), (Nat.leb_spec 97 n), (Nat.leb_spec n 122),
    (Nat.leb_spec 48 n), (Nat.leb_spec n 57); simpl; intro Hc; try reflexivity; try discriminate; lia.
Qed.

Lemma letter_not_space c : is_letter c = true -> py_space c = false.
Proof.
  unfold is_letter, py_space. set (n := nat_of_ascii c).
  destruct (Nat.leb_spec 65 n), (Nat.leb_spec n 90), (Nat.leb_spec 97 n), (Nat.leb_spec n 122),
    (Nat.leb_spec 9 n), (Nat.leb_spec n 13), (Nat.leb_spec 28 n), (Nat.leb_spec n 32);
    simpl; intro Hc; try reflexivity; try discriminate; lia.
Qed.

Lemma digits_rev_digits fuel : forall n, Forall (fun c => is_digit c = true) (digits_rev fuel n).
Proof.
  induction fuel as [|f IH]; intro n; simpl; constructor.
  - apply is_digit_char. lia.
  - destruct (n / 10 =? 0); [constructor | apply IH].
Qed.

Lemma digits_rev_value fuel : forall n acc, (1 <= fuel)%nat -> 0 <= n < 10 ^ Z.of_nat fuel ->
  fold_left (fun a c => 10 * a + digit_value c) (rev (digits_rev fuel n)) acc =
  acc * 10 ^ Z.of_nat (List.length (digits_rev fuel n)) + n.
Proof.
  induction fuel as [|f IH]; intros n acc H1 Hn; [lia|]. cbn [digits_rev rev List.length].
  rewrite fold_left_app. cbn [fold_left]. rewrite digit_value_char by lia.
  destruct (n / 10 =? 0) eqn:E.
  - apply Z.eqb_eq in E. cbn [List.length Z.of_nat rev fold_left]. rewrite Z.pow_1_r. lia.
  - apply Z.eqb_neq in E. destruct f as [|f].
    + simpl in Hn. lia.
    + rewrite Nat2Z.inj_succ, Z.pow_succ_r in Hn by lia.
      rewrite IH by (first [lia | split; [apply Z.div_pos; lia | apply Z.div_lt_upper_bound; lia]]).
      rewrite Nat2Z.inj_succ, Z.pow_succ_r by lia.
      rewrite Z2Nat.id by lia.
      pose proof (Z.div_mod n 10 ltac:(lia)). nia.
Qed.

Lemma fuel_enough n : 0 <= n -> n < 10 ^ Z.of_nat (S (Z.to_nat (Z.log2 n))).
Proof.
  intro Hn. rewrite Nat2Z.inj_succ, Z2Nat.id by apply Z.log2_nonneg.
  destruct (Z.eq_dec n 0) as [->|Hn0]; [reflexivity|].
  destruct (Z.log2_spec n) as [_ H2]; [lia|].
  assert (2 ^ Z.succ (Z.log2 n) <= 10 ^ Z.succ (Z.log2 n))
    by (apply Z.pow_le_mono_l; lia).
  lia.
Qed.

Lemma int_digits_app l1 : forall acc l2, Forall (fun c => is_digit c = true) l1 ->
  int_digits acc (l1 ++ l2) = int_digits (fold_left (fun a c => 10 * a + digit_value c) l1 acc) l2.
Proof.
  induction l1 as [|c l1 IH]; intros acc l2 H; [reflexivity|].
  inversion H as [|? ? Hc Hl]; subst. simpl. rewrite Hc. apply IH. exact Hl.
Qed.

Lemma lstrip_id s : (forall c r, list_ascii_of_string s = c :: r -> py_space c = false) -> lstrip s = s.
Proof. destruct s as [|c s]; intro H; [reflexivity|]. simpl. rewrite (H c _ eq_refl). reflexivity. Qed.

Lemma strip_nospace s : forallb (fun c => negb (py_space c)) (list_ascii_of_string s) = true -> strip s = s.
Proof.
  intro H. unfold strip.
  assert (Hl : lstrip s = s).
  { apply lstrip_id. intros c r E. rewrite E in H. simpl in H.
    apply andb_prop in H as [H _]. apply negb_true_iff. exact H. }
  rewrite Hl. unfold rev_string at 2. rewrite lstrip_id.
  - unfold rev_string. rewrite list_ascii_of_string_of_list_ascii, rev_involutive.
    apply string_of_list_ascii_of_string.
  - intros c r E. rewrite list_ascii_of_string_of_list_ascii in E.
    assert (Hin : In c (rev (list_ascii_of_string s))) by (rewrite E; left; reflexivity).
    apply in_rev in Hin. rewrite forallb_forall in H. apply H in Hin.
    apply negb_true_iff. exact Hin.
Qed.

Lemma py_int_str_eq s :
  py_int_str s =
  match list_ascii_of_string (strip s) with
  | [] => None
  | c :: r =>
      if Ascii.eqb c "+" then int_unsigned r
      else if Ascii.eqb c "-" then option_map Z.opp (int_unsigned r)
      else int_unsigned (c :: r)
  end.
Proof.
  unfold py_int_str. destruct (list_ascii_of_string (strip s)) as [|c r]; [reflexivity|].
  destruct c as [[] [] [] [] [] [] [] []]; reflexivity.
Qed.

(** [str(n)] for [n >= 0] is its decimal digits. *)
Lemma str_int_digits n : 0 <= n ->
  exists c r, list_ascii_of_string (str_int n) = c :: r /\
    Forall (fun c => is_digit c = true) (c :: r) /\
    fold_left (fun a c => 10 * a + digit_value c) (c :: r) 0 = n.
Proof.
  intro Hn. unfold str_int. rewrite (proj2 (Z.ltb_ge n 0)) by lia. rewrite Z.abs_eq by lia.
  set (D := digits_rev (S (Z.to_nat (Z.log2 n))) n).
  assert (HF : Forall (fun c => is_digit c = true) (rev D)) by (apply Forall_rev, digits_rev_digits).
  assert (HV := digits_rev_value (S (Z.to_nat (Z.log2 n))) n 0 ltac:(lia) (conj Hn (fuel_enough n Hn))).
  fold D in HV. rewrite list_ascii_of_string_of_list_ascii.
  destruct (rev D) as [|c r] eqn:E.
  - exfalso. assert (HD : D <> []) by (unfold D; cbn [digits_rev]; discriminate).
    apply HD. rewrite <- (rev_involutive D), E. reflexivity.
  - exists c, r. split; [reflexivity|]. split; [exact HF|]. rewrite HV. lia.
Qed.

Lemma isdigit_str_int n : 0 <= n -> isdigit (str_int n) = true.
Proof.
  intro Hn. destruct (str_int_digits n Hn) as [c [r [E [HF _]]]].
  rewrite <- (string_of_list_ascii_of_string (str_int n)), E. unfold isdigit. cbn [string_of_list_ascii].
  change (forallb is_digit (list_ascii_of_string (string_of_list_ascii (c :: r))) = true).
  rewrite list_ascii_of_string_of_list_ascii. apply forallb_forall. intros x Hx.
  rewrite Forall_forall in HF. apply HF, Hx.
Qed.

Lemma py_int_str_str_int n : 0 <= n -> py_int_str (str_int n) = Some n.
Proof.
  intro Hn. destruct (str_int_digits n Hn) as [c [r [E [HF HV]]]].
  rewrite py_int_str_eq, strip_nospace.
  2: { rewrite E. apply forallb_forall. intros x Hx. rewrite Forall_forall in HF.
       apply negb_true_iff, digit_not_space, HF, Hx. }
  rewrite E. apply Forall_cons_iff in HF as [Hc Hr].
  destruct (Ascii.eqb c "+") eqn:Ep; [apply Ascii.eqb_eq in Ep; subst; discriminate|].
  destruct (Ascii.eqb c "-") eqn:Em; [apply Ascii.eqb_eq in Em; subst; discriminate|].
  unfold int_unsigned. rewrite Hc. rewrite <- (app_nil_r r), int_digits_app by exact Hr.
  rewrite <- HV. reflexivity.
Qed.

Lemma filter_digits_str_int n : 0 <= n -> filter_digits (str_int n) = str_int n.
Proof.
  intro Hn. destruct (str_int_digits n Hn) as [c [r [E [HF _]]]].
  unfold filter_digits. rewrite E.
  assert (Hf : forall l, Forall (fun c => is_digit c = true) l -> filter is_digit l = l).
  { induction l as [|a l IH]; intro H; [reflexivity|]. inversion H; subst. simpl.
    rewrite H2, IH by assumption. reflexivity. }
  rewrite Hf by exact HF. rewrite <- E. apply string_of_list_ascii_of_string.
Qed.

Lemma int_digits_letter x : is_letter x = true -> forall n l acc, (List.length l <= n)%nat -> In x l -> int_digits acc l = None.
Proof.
  intros Hx n. induction n as [|n IH]; intros l acc Hl Hin.
  - destruct l; [contradiction | simpl in Hl; lia].
  - destruct l as [|c r]; [contradiction|]. simpl in Hl. simpl.
    destruct (is_digit c) eqn:Ed.
    + apply (IH r); [lia|]. destruct Hin as [->|Hin]; [|exact Hin].
      rewrite letter_not_digit in Ed by exact Hx. discriminate.
    + destruct (Ascii.eqb c "_") eqn:Eu; [|reflexivity].
      apply Ascii.eqb_eq in Eu. subst c.
      destruct r as [|c' r']; [reflexivity|].
      destruct (is_digit c') eqn:Ed'; [|reflexivity].
      simpl in Hl. apply (IH r'); [lia|].
      destruct Hin as [<-|[<-|Hin]]; [discriminate Hx | | exact Hin].
      rewrite letter_not_digit in Ed' by exact Hx. discriminate.
Qed.

Lemma int_unsigned_letter x l : is_letter x = true -> In x l -> int_unsigned l = None.
Proof.
  intros Hx Hin. destruct l as [|c r]; [reflexivity|]. simpl.
  destruct (is_digit c) eqn:Ed; [|reflexivity].
  destruct Hin as [->|Hin]; [rewrite letter_not_digit in Ed by exact Hx; discriminate|].
  apply (int_digits_letter x Hx (List.length r)); [lia | exact Hin].
Qed.

Lemma in_lstrip x s : py_space x = false -> In x (list_ascii_of_string s) -> In x (list_ascii_of_string (lstrip s)).
Proof.
  intro Hx. induction s as [|c s IH]; intro Hin; [exact Hin|]. simpl.
  destruct (py_space c) eqn:Ec.
  - apply IH. destruct Hin as [->|Hin]; [congruence | exact Hin].
  - exact Hin.
Qed.

Lemma in_rev_string x s : In x (list_ascii_of_string s) -> In x (list_ascii_of_string (rev_string s)).
Proof. intro H. unfold rev_string. rewrite list_ascii_of_string_of_list_ascii. apply in_rev. rewrite rev_involutive. exact H. Qed.

Lemma py_int_str_letter x s : is_letter x = true -> In x (list_ascii_of_string s) -> py_int_str s = None.
Proof.
  intros Hx Hin.
  assert (Hs : In x (list_ascii_of_string (strip s))).
  { unfold strip. apply in_rev_string, in_lstrip, in_rev_string, in_lstrip;
      first [apply letter_not_space; exact Hx | exact Hin]. }
  rewrite py_int_str_eq. destruct (list_ascii_of_string (strip s)) as [|c r]; [reflexivity|].
  assert (Hr : c <> x -> In x r) by (intro Hne; destruct Hs as [->|Hs]; [congruence | exact Hs]).
  destruct (Ascii.eqb c "+") eqn:Ep.
  - apply Ascii.eqb_eq in Ep. subst c. apply (int_unsigned_letter x); [exact Hx|].
    apply Hr. intros <-. discriminate Hx.
  - destruct (Ascii.eqb c "-") eqn:Em.
    + apply Ascii.eqb_eq in Em. subst c. rewrite (int_unsigned_letter x); [reflexivity | exact Hx |].
      apply Hr. intros <-. discriminate Hx.
    + apply (int_unsigned_letter x); assumption.
Qed.

Lemma normalize_port_dev sys x :
  String.eqb sys "Windows" = false ->
  normalize_port sys ("/dev/ttyACM" ++ x) = Ok ("/dev/ttyACM" ++ x)%string.
Proof. intro Hw. unfold normalize_port. rewrite Hw. reflexivity. Qed.

Lemma startswith_app p x : startswith (p ++ x) p = true.
Proof.
  unfold startswith. induction p as [|a p IH]; simpl.
  - destruct x; reflexivity.
  - destruct (ascii_dec a a) as [_|Hn]; [exact IH | contradiction].
Qed.

Lemma startswith_upper_com x : startswith (upper ("COM" ++ x)) "COM" = true.
Proof. change (upper ("COM" ++ x)) with ("COM" ++ upper x)%string. apply startswith_app. Qed.

Lemma startswith_upper_com_lower x : startswith (upper ("com" ++ x)) "COM" = true.
Proof. change (upper ("com" ++ x)) with ("COM" ++ upper x)%string. apply startswith_app. Qed.

Lemma normalize_port_com_windows x : normalize_port "Windows" ("COM" ++ x) = Ok ("COM" ++ x)%string.
Proof. unfold normalize_port. rewrite startswith_upper_com. reflexivity. Qed.

(** [normalize_port] is idempotent: a port name it returns is returned
    unchanged by a second call on the same platform. *)
Theorem normalize_port_idempotent sys p q :
  normalize_port sys p = Ok q -> normalize_port sys q = Ok q.
Proof.
  intro H. unfold normalize_port in H.
  destruct (String.eqb sys "Windows") eqn:Ew.
  - apply String.eqb_eq in Ew. subst sys.
    destruct (isdigit p) eqn:Ed.
    + injection H as <-. apply normalize_port_com_windows.
    + destruct (startswith (upper p) "COM") eqn:Ec; injection H as <-.
      * unfold normalize_port. rewrite Ed, Ec. reflexivity.
      * apply normalize_port_com_windows.
  - destruct (isdigit p) eqn:Ed.
    + destruct (py_int_str p); [injection H as <-; apply normalize_port_dev, Ew | discriminate].
    + destruct (startswith (upper p) "COM") eqn:Ec.
      * destruct (py_int_str (filter_digits p)); [injection H as <-; apply normalize_port_dev, Ew | discriminate].
      * destruct (negb (startswith p "/dev/")) eqn:Ev.
        -- destruct (py_int_str p); [injection H as <-; apply normalize_port_dev, Ew | discriminate].
        -- injection H as <-. unfold normalize_port. rewrite Ed, Ew, Ec, Ev. reflexivity.
Qed.

(** A decimal digit is its own upper case and is not [C]. *)
Lemma digit_upper_not_com c x : is_digit c = true -> startswith (upper (String c x)) "COM" = false.
Proof.
  intro H. change (upper (String c x)) with (String (upper_char c) (upper x)).
  destruct c as [[] [] [] [] [] [] [] []]; first [discriminate H | reflexivity].
Qed.

Lemma isdigit_not_com p : isdigit p = true -> startswith (upper p) "COM" = false.
Proof.
  destruct p as [|c p]; [discriminate|]. unfold isdigit. cbn [list_ascii_of_string forallb].
  intro H. apply andb_prop in H as [H _]. apply digit_upper_not_com, H.
Qed.

(** On Windows [normalize_port] never fails: it returns the name itself when
    it starts with [COM] in any case, and otherwise, a plain number in
    particular, the name with [COM] in front. *)
Theorem normalize_port_windows p :
  exists q, normalize_port "Windows" p = Ok q /\ startswith (upper q) "COM" = true /\
    (startswith (upper p) "COM" = true -> q = p) /\
    (startswith (upper p) "COM" = false -> q = ("COM" ++ p)%string) /\
    (isdigit p = true -> q = ("COM" ++ p)%string).
Proof.
  unfold normalize_port. simpl String.eqb. cbv iota.
  destruct (isdigit p) eqn:Ed.
  - pose proof (isdigit_not_com p Ed) as Ec.
    eexists; split; [reflexivity|]. split; [apply startswith_upper_com|].
    rewrite Ec. repeat split; intros; first [discriminate | reflexivity].
  - destruct (startswith (upper p) "COM") eqn:Ec.
    + eexists; split; [reflexivity|]. split; [exact Ec|].
      repeat split; intros; first [discriminate | reflexivity].
    + eexists; split; [reflexivity|]. split; [apply startswith_upper_com|].
      repeat split; intros; first [discriminate | reflexivity].
Qed.

(** Off Windows, a number [n >= 0], written alone or after [COM] or [com],
    becomes [/dev/ttyACM(n-1)], so [0] gives [/dev/ttyACM-1]. *)
Theorem normalize_port_numbers sys n :
  sys <> "Windows"%string -> 0 <= n ->
  normalize_port sys (str_int n) = Ok ("/dev/ttyACM" ++ str_int (n - 1))%string /\
  normalize_port sys ("COM" ++ str_int n) = Ok ("/dev/ttyACM" ++ str_int (n - 1))%string /\
  normalize_port sys ("com" ++ str_int n) = Ok ("/dev/ttyACM" ++ str_int (n - 1))%string.
Proof.
  intros Hw Hn. apply String.eqb_neq in Hw. unfold normalize_port. rewrite Hw.
  rewrite isdigit_str_int, py_int_str_str_int by exact Hn.
  change (filter_digits ("COM" ++ str_int n)) with (filter_digits (str_int n)).
  change (filter_digits ("com" ++ str_int n)) with (filter_digits (str_int n)).
  rewrite startswith_upper_com, startswith_upper_com_lower.
  rewrite filter_digits_str_int, py_int_str_str_int by exact Hn.
  repeat split.
Qed.

(** Off Windows, [normalize_port] raises [ValueError] for a [COM] name
    without digits, and for a name that contains a letter and starts with
    neither [COM] (in any case) nor [/dev/], such as [ttyUSB0]. *)
Theorem normalize_port_value_error sys p :
  sys <> "Windows"%string ->
  (startswith (upper p) "COM" = true -> filter_digits p = EmptyString ->
   normalize_port sys p = Raise (ValueError "invalid literal for int()")) /\
  (forall x, is_letter x = true -> In x (list_ascii_of_string p) ->
   startswith (upper p) "COM" = false -> startswith p "/dev/" = false ->
   normalize_port sys p = Raise (ValueError "invalid literal for int()")).
Proof.
  intro Hw. apply String.eqb_neq in Hw. split.
  - intros Hc Hf. unfold normalize_port. rewrite Hw, Hc, Hf.
    destruct (isdigit p) eqn:Ed; [|reflexivity].
    exfalso. destruct p as [|c p]; [discriminate|].
    unfold isdigit in Ed. unfold filter_digits in Hf.
    rewrite (forallb_filter_id _ _ Ed) in Hf.
    rewrite string_of_list_ascii_of_string in Hf. discriminate.
  - intros x Hx Hin Hc Hv. unfold normalize_port. rewrite Hw, Hc, Hv.
    rewrite (py_int_str_letter x p Hx Hin).
    destruct (isdigit p) eqn:Ed; [|reflexivity].
    exfalso. destruct p as [|c p]; [discriminate|].
    unfold isdigit in Ed. rewrite forallb_forall in Ed. apply Ed in Hin.
    rewrite letter_not_digit in Hin by exact Hx. discriminate.
Qed.

(** ** Witnesses of the further properties *)

(** The sampler query answered with [" 8\r<ACK>"]. *)
(** ** Sampler count replies *)

Lemma digit_byte c : is_digit c = true ->
  byte_of_ascii c <> Byte.x3c /\ Nat.ltb (Byte.to_nat (byte_of_ascii c)) 128 = true.
Proof.
  intro H. destruct c as [[] [] [] [] [] [] [] []];
    first [discriminate H | split; [discriminate | reflexivity]].
Qed.

(** The bytes of [str(n)] for [n >= 0] are ASCII and contain no [<]. *)
Lemma encode_str_int n : 0 <= n ->
  Forall (fun b => b <> Byte.x3c /\ Nat.ltb (Byte.to_nat b) 128 = true) (encode (str_int n)).
Proof.
  intro Hn. destruct (str_int_digits n Hn) as [c [r [E [HF _]]]].
  unfold encode, list_byte_of_string. rewrite E. apply Forall_map.
  eapply Forall_impl; [|exact HF]. intros x Hx. apply digit_byte, Hx.
Qed.

Lemma ascii_decode_str_int n : 0 <= n -> ascii_decode (encode (str_int n)) = Some (str_int n).
Proof.
  intro Hn. unfold ascii_decode. rewrite (proj2 (forallb_forall _ _)).
  - f_equal. apply string_of_list_byte_of_string.
  - intros b Hb. pose proof (encode_str_int n Hn) as HF. rewrite Forall_forall in HF.
    apply (HF b Hb).
Qed.

(** A payload without [<] is read up to the [<ACK>] that follows it. *)
Lemma read_loop_plain (d : bytes -> option string) pre payload rest :
  Forall (fun b => b <> Byte.x3c) payload ->
  read_loop d pre [] (payload ++ ACK ++ rest) = (Ok payload, rest).
Proof.
  intro HP.
  assert (Herr : first5 (payload ++ ACK) <> ERR).
  { destruct payload as [|b q]; [discriminate|]. apply Forall_cons_iff in HP as [Hb _].
    unfold first5, ERR. cbn. intro E. injection E as E. contradiction. }
  assert (Hocc : forall q r, payload ++ ACK = q ++ ACK ++ r -> r = []).
  { intros q r E. destruct r as [|b r]; [reflexivity|]. exfalso.
    assert (Hl : (List.length q < List.length payload)%nat).
    { apply (f_equal (@List.length _)) in E. rewrite !length_app, length_ACK in E.
      simpl in E. lia. }
    assert (Hn : nth (List.length q) (payload ++ ACK) Byte.x00 = Byte.x3c).
    { rewrite E, app_nth2, Nat.sub_diag by lia. reflexivity. }
    rewrite app_nth1 in Hn by lia.
    rewrite Forall_forall in HP. apply (HP _ (nth_In _ Byte.x00 Hl)). exact Hn. }
  set (u := payload ++ [Byte.x3c; Byte.x41; Byte.x43; Byte.x4b]).
  assert (Hx : payload ++ ACK = u ++ [Byte.x3e]) by (unfold u; rewrite <- app_assoc; reflexivity).
  replace (payload ++ ACK ++ rest) with (u ++ Byte.x3e :: rest)
    by (rewrite app_assoc, Hx, <- app_assoc; reflexivity).
  rewrite read_loop_skip.
  - simpl app at 1. rewrite read_loop_ack_step; rewrite <- Hx.
    + rewrite firstn_app_ACK. reflexivity.
    + rewrite length_app, length_ACK; lia.
    + apply last5_app_ACK.
  - intros k Hk. simpl.
    assert (Hk' : (1 <= k < List.length (payload ++ ACK))%nat) by (rewrite Hx, length_app; simpl; lia).
    replace (firstn k u) with (firstn k (payload ++ ACK)).
    + apply quiet_prefixes; assumption.
    + rewrite Hx, firstn_app. replace (k - List.length u)%nat with 0%nat by lia.
      simpl. apply app_nil_r.
Qed.

(** When the device answers the sampler query with [str(n)], [n >= 0],
    followed by its acknowledgement, [_update_samplers] (with [bytes.decode()]
    and [int()] on ASCII text) writes the query, consumes exactly that answer
    and sets the sampler count to [n]: the count printed by the device is the
    count parsed back. *)
Theorem update_samplers_reads_count s p n rest :
  serial s = Some p -> 0 <= n -> rx s = encode (str_int n) ++ ACK ++ rest ->
  update_samplers ascii_decode py_int_str s =
    (Ok tt, set_num_samplers n
              (set_rx rest (push_tx (encode "VarGetValue_ByName(SamplersPerFrame)" ++ [Byte.x0a]) s))).
Proof.
  intros Hs Hn Hr.
  rewrite (update_samplers_reply ascii_decode py_int_str s p (encode (str_int n)) rest Hs).
  - rewrite ascii_decode_str_int, py_int_str_str_int by exact Hn. reflexivity.
  - rewrite Hr. apply read_loop_plain.
    eapply Forall_impl; [|exact (encode_str_int n Hn)]. intros b [Hb _]. exact Hb.
Qed.

Lemma update_samplers_reads_count_witness :
  update_samplers ascii_decode py_int_str (attached (encode "128<ACK>rest")) =
  (Ok tt, set_num_samplers 128
            (set_rx (encode "rest") (push_tx (encode "VarGetValue_ByName(SamplersPerFrame)" ++ [Byte.x0a])
                                      (attached (encode "128<ACK>rest"))))).
Proof.
  apply (update_samplers_reads_count _ {| dtr := true; rts := true |} 128 (encode "rest"));
    [reflexivity | lia | vm_compute; reflexivity].
Defined.

Lemma open_exchange_witness :
  exists s', open ascii_decode py_int_str "X4" (attached (ACK ++ encode "128" ++ ACK)) = (Ok tt, s') /\
    is_open s' = true /\ num_samplers s' = 128.
Proof.
  pose proof (open_exchange ascii_decode py_int_str "X4" (attached (ACK ++ encode "128" ++ ACK))
                {| dtr := true; rts := true |} eq_refl eq_refl) as H.
  cbv zeta in H. destruct H as [_ [Hb _]].
  destruct (Hb [] (encode "128" ++ ACK) (encode "128") [] "128"%string 128) as [s' [H1 [H2 [H3 _]]]];
    [vm_compute; reflexivity ..|].
  exists s'. split; [exact H1|]. split; assumption.
Defined.

Lemma close_idempotent_witness :
  is_open (snd (close ascii_decode (opened ACK))) = false /\
  close ascii_decode (snd (close ascii_decode (opened ACK))) = (Ok tt, snd (close ascii_decode (opened ACK))).
Proof. apply (proj2 (close_idempotent ascii_decode (opened ACK))). reflexivity. Defined.

Lemma connection_open_error_witness :
  connection ascii_decode py_int_str "X4" (ret tt) (attached ERR) =
  (Raise (ProtocolError "Radar error: "),
   set_rx [] (push_tx (encode ("OpenRadar(" ++ "X4" ++ ")") ++ [Byte.x0a]) (attached ERR))).
Proof.
  apply (connection_open_error ascii_decode py_int_str "X4" (ret tt) (attached ERR) {| dtr := true; rts := true |});
    vm_compute; reflexivity.
Defined.

(** A block raising [RadarError "stop"] after the session opened; the
    device then acknowledges [Close()]. *)
Lemma connection_closes_after_body_witness :
  exists s3, connection ascii_decode py_int_str "X4" (raise (RadarError "stop"))
               (attached (ACK ++ encode "8" ++ ACK ++ ACK)) = (Raise (RadarError "stop"), s3) /\
             is_open s3 = false /\ serial s3 = None.
Proof.
  set (s1 := snd (open ascii_decode py_int_str "X4" (attached (ACK ++ encode "8" ++ ACK ++ ACK)))).
  destruct (connection_closes_after_body ascii_decode py_int_str "X4" (raise (RadarError "stop"))
              (attached (ACK ++ encode "8" ++ ACK ++ ACK)) s1 (Raise (RadarError "stop")) s1
              {| dtr := true; rts := true |}) as [Hok _];
    [vm_compute; reflexivity | reflexivity | discriminate | vm_compute; reflexivity | vm_compute; reflexivity |].
  destruct (Hok [] []) as [s3 [H1 [H2 [H3 _]]]]; [vm_compute; reflexivity|].
  exists s3. split; [exact H1|]. split; assumption.
Defined.

Lemma update_chip_exchange_witness :
  exists s', update_chip ascii_decode py_int_str (fun _ => "1"%string) "ddc_en" (PInt 1)
               (attached (ACK ++ encode "8" ++ ACK)) = (Ok tt, s') /\
             num_samplers s' = 8 /\ x4_down_converter s' = true.
Proof.
  destruct (update_chip_exchange ascii_decode py_int_str (fun _ => "1"%string) "ddc_en" (PInt 1)
              (attached (ACK ++ encode "8" ++ ACK)) {| dtr := true; rts := true |}
              [] (encode "8" ++ ACK) (encode "8") [] "8"%string 8)
    as [s' [H1 [_ [H3 [_ [_ [_ H7]]]]]]]; [vm_compute; reflexivity ..|].
  exists s'. split; [exact H1|]. split; [exact H3 | exact H7].
Defined.

Lemma read_hangs_without_marker_witness :
  read_response ascii_decode (attached (encode "abc")) = (Hang, set_rx [] (attached (encode "abc"))) /\
  read_frame ascii_decode (attached (encode "abc")) = (Hang, set_rx [] (attached (encode "abc"))).
Proof.
  apply (read_hangs_without_marker ascii_decode (attached (encode "abc")) {| dtr := true; rts := true |}).
  - reflexivity.
  - vm_compute. intro H; discriminate H.
  - intros q r H. apply (f_equal (@List.length Byte.byte)) in H.
    rewrite !length_app in H. simpl in H. lia.
Defined.

Lemma connect_handshake_error_witness :
  init ascii_decode (config_with "/dev/ttyACM0" 20) (fun _ => true) ERR =
  (Raise (ProtocolError "Radar error: "),
   set_rx [] (push_tx (encode "NVA_CreateHandle()" ++ [Byte.x0a])
                (set_serial (Some {| dtr := true; rts := true |}) (init_state ERR)))).
Proof.
  pose proof (connect_handshake_error ascii_decode (config_with "/dev/ttyACM0" 20) (fun _ => true) ERR) as H.
  cbv zeta in H. destruct H as [H _]; [simpl; lia | reflexivity |].
  apply H. vm_compute. reflexivity.
Defined.

Lemma configure_radar_mode_witness :
  x4_down_converter (snd (RadarTest.configure_radar ascii_decode py_int_str (fun _ => "1"%string) (attached (acks 4)))) = true /\
  x4_down_converter (snd (RadarVisualizer.configure_radar ascii_decode py_int_str (fun _ => "1"%string)
                            (set_x4_down_converter true (attached (acks 6))))) = false /\
  x4_down_converter (snd (PracticalRadarTest.configure_radar ascii_decode py_int_str (fun _ => "1"%string)
                            (set_x4_down_converter true (attached (acks 6))))) = false.
Proof.
  split; [|split].
  - apply (proj1 (configure_radar_mode ascii_decode py_int_str (fun _ => "1"%string) (attached (acks 4)))).
    vm_compute. reflexivity.
  - apply (proj1 (proj2 (configure_radar_mode ascii_decode py_int_str (fun _ => "1"%string)
                          (set_x4_down_converter true (attached (acks 6)))))).
    vm_compute. reflexivity.
  - apply (proj2 (proj2 (configure_radar_mode ascii_decode py_int_str (fun _ => "1"%string)
                          (set_x4_down_converter true (attached (acks 6)))))).
    vm_compute. reflexivity.
Defined.

Lemma find_radar_port_first_witness :
  (exists pre post, ["/dev/ttyS0"; "/dev/ttyACM0"; "/dev/ttyUSB1"]%string = pre ++ "/dev/ttyACM0"%string :: post /\
     radar_port_name (lower "Linux") "/dev/ttyACM0" = true /\
     forallb (fun x => negb (radar_port_name (lower "Linux") x)) pre = true) /\
  find_radar_port "Darwin" ["/dev/ttyACM0"]%string = None.
Proof.
  destruct (find_radar_port_first "Linux" ["/dev/ttyS0"; "/dev/ttyACM0"; "/dev/ttyUSB1"]%string) as [H _].
  destruct (find_radar_port_first "Darwin" ["/dev/ttyACM0"]%string) as [_ [_ Hd]].
  split; [apply H; vm_compute; reflexivity|].
  apply Hd; vm_compute; discriminate.
Defined.

Lemma create_default_config_witness :
  com_port (create_default "Darwin" ["/dev/ttyACM0"]%string) = "/dev/ttyUSB0"%string.
Proof.
  destruct (create_default_config "Darwin" ["/dev/ttyACM0"]%string) as [_ [_ [_ [_ [_ [_ [_ H]]]]]]].
  apply H; vm_compute; discriminate.
Defined.

Lemma normalize_port_idempotent_witness :
  normalize_port "Linux" "/dev/ttyACM3" = Ok "/dev/ttyACM3"%string.
Proof. apply (normalize_port_idempotent "Linux" "4"). vm_compute. reflexivity. Defined.

Lemma normalize_port_numbers_witness :
  normalize_port "Linux" (str_int 0) = Ok ("/dev/ttyACM" ++ str_int (0 - 1))%string /\
  normalize_port "Linux" ("COM" ++ str_int 0) = Ok ("/dev/ttyACM" ++ str_int (0 - 1))%string /\
  normalize_port "Linux" ("com" ++ str_int 0) = Ok ("/dev/ttyACM" ++ str_int (0 - 1))%string.
Proof. apply normalize_port_numbers; [discriminate | lia]. Defined.

Lemma normalize_port_value_error_witness :
  normalize_port "Linux" "COM" = Raise (ValueError "invalid literal for int()") /\
  normalize_port "Linux" "ttyUSB0" = Raise (ValueError "invalid literal for int()").
Proof.
  split.
  - apply (proj1 (normalize_port_value_error "Linux" "COM" ltac:(discriminate))); vm_compute; reflexivity.
  - apply (proj2 (normalize_port_value_error "Linux" "ttyUSB0" ltac:(discriminate)) "t"%char);
      vm_compute; first [reflexivity | left; reflexivity | tauto].
Defined.
